(** * discord_logging: a logging handler that posts records to a Discord webhook

    Shallow embedding of the two handler classes of the repository

      - [Long]    : src/discord_logging/handler.py (client library discord_webhook)
      - [Minimal] : src/handler.py                 (client library discord.py)

    and the properties of [emit], [clip_content] and
    [should_format_as_code_block].

    Python values are modelled as follows.
      - [str] is a sequence of Unicode code points, so that [len] counts
        code points: [pystr := list N].
      - [int] is [Z].
      - a [dict] whose keys are [None] or an integer level is a
        [gmap (option Z) _]; the key [None] is the fallback entry.
      - an exception is a value of [exn]; a computation that may raise
        returns a [result].
      - the handler object is a record; [emit] threads it explicitly and
        records what it does to the outside world in a trace of events.

    The two client libraries are not part of the repository.  What they
    do on their own (validating the URL in [SyncWebhook.from_url], sending,
    logging while they send) is an input of the model; [DiscordWebhook(...)]
    only stores its arguments, and [DiscordEmbed(...)] refuses a colour
    outside [0 .. 0xFFFFFF]. *)

From Stdlib Require Import ZArith List Ascii String DecimalString Lia Bool.
From stdpp Require Import base option list gmap.
Import ListNotations.

Open Scope Z_scope.

(** ** Python strings *)

Definition char := N.
Abbreviation pystr := (list char).

(** A literal written in ASCII. *)
Definition lit (s : string) : pystr :=
  List.map N_of_ascii (list_ascii_of_string s).

Definition NEWLINE : char := 10%N.
Definition SPACE : pystr := Eval cbv in lit " ".
Definition ELLIPSIS : pystr := Eval cbv in lit "...".
Definition FENCE : pystr := Eval cbv in lit "```".
Definition NONE_REPR : pystr := Eval cbv in lit "None".

(** [repr(n)] of an integer: its decimal digits. *)
Definition repr_int (n : Z) : pystr := lit (NilZero.string_of_int (Z.to_int n)).

(** [len(s)] *)
Definition len (s : pystr) : Z := Z.of_nat (length s).

(** [c in s] for a one-character [c]. *)
Definition contains (c : char) (s : pystr) : bool :=
  existsb (fun x => N.eqb x c) s.

(** Truthiness of a string: [if s:]. *)
Definition str_truthy (s : pystr) : bool :=
  match s with [] => false | _ :: _ => true end.

(** *** Slices

    [s[start:stop]] with step 1.  A missing bound is [None]; a negative
    bound counts from the end; bounds are clamped to [0 .. len(s)], as
    [PySlice_AdjustIndices] does. *)

Definition adjust_index (n : Z) (i : Z) : Z :=
  if i <? 0 then (if i + n <? 0 then 0 else i + n)
  else (if n <? i then n else i).

Definition slice (s : pystr) (start stop : option Z) : pystr :=
  let n := len s in
  let lo := match start with Some i => adjust_index n i | None => 0 end in
  let hi := match stop with Some j => adjust_index n j | None => n end in
  firstn (Z.to_nat (hi - lo)) (skipn (Z.to_nat lo) s).

(** *** [str.split(sep, maxsplit)] for a one-character separator

    [maxsplit = None] is the default (no limit).  The result always has at
    least one element. *)

Fixpoint str_split (sep : char) (maxsplit : option nat) (s : pystr) : list pystr :=
  match s with
  | [] => [[]]
  | c :: s' =>
      if N.eqb c sep then
        match maxsplit with
        | Some O => [s]
        | Some (S k) => [] :: str_split sep (Some k) s'
        | None => [] :: str_split sep None s'
        end
      else
        match str_split sep maxsplit s' with
        | l :: ls => (c :: l) :: ls
        | [] => [[c]]
        end
  end.

(** [max(xs)] on a list of integers; [ValueError] on the empty list is
    rendered as [None]. *)
Definition py_max (xs : list Z) : option Z :=
  match xs with
  | [] => None
  | x :: xs' => Some (fold_left Z.max xs' x)
  end.

(** ** Exceptions and results *)

Inductive exn_class := HTTPException | KeyError | ValueError | OtherException.

(** Every modelled exception is an instance of Python's [Exception]; its
    text is what [str(e)] gives. *)
Record exn := Exn { exn_cls : exn_class; exn_text : pystr }.

Inductive result (A : Type) :=
| Ok (a : A)
| Raise (e : exn).
Arguments Ok {A} a.
Arguments Raise {A} e.

Definition is_http (e : exn) : bool :=
  match exn_cls e with HTTPException => true | _ => false end.

(** ** The outside world *)

(** A [logging.LogRecord]: only [levelno] is read by the handlers; the
    rest is opaque and only passed to [self.format] and [self.handleError]. *)
Record LogRecord := { levelno : Z; record_body : pystr }.

(** [DiscordEmbed(title=..., description=..., color=...)] and
    [Embed(color=..., title=...)]. *)
Record embed := {
  title : pystr;
  description : option pystr;
  color : Z
}.

(** What is handed to the webhook client when the message is sent:
    the [DiscordWebhook] object at the time of [execute()], or the
    arguments of [SyncWebhook.send]. *)
Record message := {
  url : pystr;
  username : pystr;
  avatar : option pystr;
  rate_limit_retry_opt : option bool;
  content : option pystr;
  embeds : list embed
}.

(** What [emit] does to the outside world. *)
Inductive event :=
| EvSend (m : message)          (* discord.execute() / discord.send(...) *)
| EvStderr (line : pystr)       (* print(..., file=sys.stderr) *)
| EvHandleError (r : LogRecord) (* self.handleError(record) *).

(** The collaborators of one call of [emit]: the formatter
    ([self.format]), the constructor [SyncWebhook.from_url] of src/handler.py
    (which validates the URL) and the send operation of the webhook client.
    While it sends, the client may itself log records through the logging
    framework, which hands them to this same handler: [w_send] gives those
    records, each with the collaborators of its own nested call, and then
    the outcome of the send. *)
#[warnings="-register-all"]
Inductive world := World {
  w_format : LogRecord -> result pystr;
  w_construct : pystr -> result unit;
  w_send : message -> list (LogRecord * world) * result unit
}.

(** ** Handler computations: state, trace and exceptions *)

Section Monad.
Context {S : Type}.

Definition M (A : Type) : Type := S -> S * list event * result A.

Definition ret {A} (a : A) : M A := fun s => (s, [], Ok a).

Definition raise {A} (e : exn) : M A := fun s => (s, [], Raise e).

Definition bind {A B} (m : M A) (k : A -> M B) : M B :=
  fun s =>
    match m s with
    | (s1, t1, Ok a) =>
        match k a s1 with
        | (s2, t2, r) => (s2, t1 ++ t2, r)
        end
    | (s1, t1, Raise e) => (s1, t1, Raise e)
    end.

Definition lift {A} (r : result A) : M A := fun s => (s, [], r).

Definition emit_event (ev : event) : M unit := fun s => (s, [ev], Ok tt).

Definition get : M S := fun s => (s, [], Ok s).

Definition modify (f : S -> S) : M unit := fun s => (f s, [], Ok tt).

(** [try: body  except Exception as e: handler(e)] *)
Definition try_except {A} (body : M A) (handler : exn -> M A) : M A :=
  fun s =>
    match body s with
    | (s1, t1, Ok a) => (s1, t1, Ok a)
    | (s1, t1, Raise e) =>
        match handler e s1 with
        | (s2, t2, r) => (s2, t1 ++ t2, r)
        end
    end.

(** [try: body  finally: fin] *)
Definition try_finally {A} (body : M A) (fin : M unit) : M A :=
  fun s =>
    match body s with
    | (s1, t1, r1) =>
        match fin s1 with
        | (s2, t2, Ok _) => (s2, t1 ++ t2, r1)
        | (s2, t2, Raise e) => (s2, t1 ++ t2, Raise e)
        end
    end.

End Monad.

Arguments M : clear implicits.

Section Nested.
Context {S W : Type} (handle : W -> LogRecord -> M S unit).

(** The records the client logs while it sends are handled one after
    the other by the handler ([Logger.callHandlers] calls
    [Handler.handle], which calls [emit]); an exception of a nested call
    would surface in the client. *)
Fixpoint run_nested (nested : list (LogRecord * W)) : M S unit :=
  match nested with
  | [] => ret tt
  | (r, w) :: rest => bind (handle w r) (fun _ => run_nested rest)
  end.
End Nested.

Declare Scope py_scope.
Delimit Scope py_scope with py.
Notation "x <- m ;; k" := (bind m (fun x => k))
  (at level 100, m at next level, right associativity) : py_scope.
Notation "m ;;; k" := (bind m (fun _ => k))
  (at level 100, right associativity) : py_scope.

Definition print_stderr {S} (line : pystr) : M S unit := emit_event (EvStderr line).
Definition handleError {S} (r : LogRecord) : M S unit := emit_event (EvHandleError r).

(** [f"{x}"] for a value that is a string or [None]. *)
Definition fstr (x : option pystr) : pystr :=
  match x with Some s => s | None => NONE_REPR end.

(** Truthiness of a value that is a string or [None]. *)
Definition truthy (x : option pystr) : bool :=
  match x with Some s => str_truthy s | None => false end.

(** [d[None]] *)
Definition getitem_None {V} (d : gmap (option Z) V) : result V :=
  match d !! (None : option Z) with
  | Some v => Ok v
  | None => Raise (Exn KeyError NONE_REPR)
  end.

(** [logging.CRITICAL] .. [logging.DEBUG] *)
Definition CRITICAL : Z := 50.
Definition ERROR : Z := 40.
Definition WARNING : Z := 30.
Definition INFO : Z := 20.
Definition DEBUG : Z := 10.

(** The emoji literals of both files, as code points. *)
Definition EMOJI_SOS : pystr := [127384%N].
Definition EMOJI_CROSS : pystr := [10060%N].
Definition EMOJI_WARNING : pystr := [9888%N; 65039%N].

(** ** src/discord_logging/handler.py *)

Module Long.

(** lines 11-18 *)
Definition DEFAULT_COLOURS : gmap (option Z) Z :=
  list_to_map
    [ (None, 2040357);
      (Some CRITICAL, 14362664);
      (Some ERROR, 14362664);
      (Some WARNING, 16497928);
      (Some INFO, 2196944);
      (Some DEBUG, 8947848) ].

(** lines 22-29 *)
Definition DEFAULT_EMOJIS : gmap (option Z) pystr :=
  list_to_map
    [ (None, []);
      (Some CRITICAL, EMOJI_SOS);
      (Some ERROR, EMOJI_CROSS);
      (Some WARNING, EMOJI_WARNING);
      (Some INFO, []);
      (Some DEBUG, []) ].

Record DiscordHandler := {
  webhook_url : pystr;
  service_name : pystr;
  colours : gmap (option Z) Z;
  emojis : gmap (option Z) pystr;
  rate_limit_retry : bool;
  avatar_url : option pystr;
  reentry_barrier : bool;
  embed_line_wrap_threshold : Z
}.

(** [__init__], lines 39-69, with every default spelled out by
    [init_default]. *)
Definition __init__ (service_name webhook_url : pystr)
    (colours : gmap (option Z) Z) (emojis : gmap (option Z) pystr)
    (avatar_url : option pystr) (rate_limit_retry : bool)
    (embed_line_wrap_threshold : Z) : DiscordHandler :=
  {| webhook_url := webhook_url;
     service_name := service_name;
     colours := colours;
     emojis := emojis;
     rate_limit_retry := rate_limit_retry;
     avatar_url := avatar_url;
     reentry_barrier := false;
     embed_line_wrap_threshold := embed_line_wrap_threshold |}.

Definition init_default (service_name webhook_url : pystr) : DiscordHandler :=
  __init__ service_name webhook_url DEFAULT_COLOURS DEFAULT_EMOJIS None true 60.

(** [self.reentry_barrier = b] *)
Definition set_reentry_barrier (b : bool) (self : DiscordHandler) : DiscordHandler :=
  {| webhook_url := webhook_url self;
     service_name := service_name self;
     colours := colours self;
     emojis := emojis self;
     rate_limit_retry := rate_limit_retry self;
     avatar_url := avatar_url self;
     reentry_barrier := b;
     embed_line_wrap_threshold := embed_line_wrap_threshold self |}.

(** lines 71-81 *)
Definition should_format_as_code_block (self : DiscordHandler) (msg : pystr) : bool :=
  if negb (contains NEWLINE msg) then
    if len msg >? embed_line_wrap_threshold self then true
    else contains NEWLINE msg
  else contains NEWLINE msg.

(** lines 83-94; [DEFAULT_MAX_LEN] is the default of [max_len], and
    [clip_to_end] defaults to [true]. *)
Definition DEFAULT_MAX_LEN : Z := 1900.

Definition clip_content (content : pystr) (max_len : Z) (clip_to_end : bool) : pystr :=
  if len content >? max_len - 5 then
    if clip_to_end then
      ELLIPSIS ++ slice content (Some (- max_len)) None
    else
      slice content (Some 0) (Some max_len) ++ ELLIPSIS
  else
    content.

(** line 122: [self.colours.get(record.levelno) or self.colours[None]] *)
Definition colour_of (self : DiscordHandler) (record : LogRecord) : result Z :=
  match colours self !! Some (levelno record) with
  | Some c => if c =? 0 then getitem_None (colours self) else Ok c
  | None => getitem_None (colours self)
  end.

(** lines 123-126: [emoji = self.emojis.get(record.levelno)], then a
    space is added when it is truthy. *)
Definition emoji_of (self : DiscordHandler) (record : LogRecord) : option pystr :=
  let emoji := emojis self !! Some (levelno record) in
  if truthy emoji then Some (fstr emoji ++ SPACE) else emoji.

(** lines 131-135: [first, remainder = msg.split("\n", maxsplit=1)],
    with the [ValueError] of the unpacking caught. *)
Definition first_remainder (msg : pystr) : pystr * pystr :=
  match str_split NEWLINE (Some 1%nat) msg with
  | [first; remainder] => (first, remainder)
  | _ => (msg, [])
  end.

(** line 137: [max([len(l) for l in msg.split("\n")])] *)
Definition max_line_length (msg : pystr) : result Z :=
  match py_max (List.map len (str_split NEWLINE None msg)) with
  | Some n => Ok n
  | None => Raise (Exn ValueError [])
  end.

(** line 109: the [DiscordWebhook] object as constructed.  The
    constructor of the client library only stores its arguments: it neither
    looks at the URL nor raises. *)
Definition new_webhook (self : DiscordHandler) : message :=
  {| url := webhook_url self;
     username := service_name self;
     avatar := avatar_url self;
     rate_limit_retry_opt := Some (rate_limit_retry self);
     content := None;
     embeds := [] |}.

Definition set_content (c : pystr) (discord : message) : message :=
  {| url := url discord; username := username discord; avatar := avatar discord;
     rate_limit_retry_opt := rate_limit_retry_opt discord;
     content := Some c; embeds := embeds discord |}.

Definition add_embed (e : embed) (discord : message) : message :=
  {| url := url discord; username := username discord; avatar := avatar discord;
     rate_limit_retry_opt := rate_limit_retry_opt discord;
     content := content discord; embeds := embeds discord ++ [e] |}.

(** [DiscordEmbed(title=..., description=..., color=...)] of the client
    library discord_webhook, which is not part of the repository: a colour
    outside [0 .. 0xFFFFFF] is refused with [ColorNotInRangeException]. *)
Definition COLOUR_MAX : Z := 16777215.

Definition ColorNotInRangeException (colour : Z) : exn :=
  Exn OtherException
    (repr_int colour ++
     lit " is not in valid range of colors. The valid ranges of colors are 0 to 16777215 inclusive (INTEGERS) and 0 to FFFFFF inclusive (HEXADECIMAL)").

Definition DiscordEmbed (title : pystr) (description : option pystr) (colour : Z)
    : result embed :=
  if (0 <=? colour) && (colour <=? COLOUR_MAX) then
    Ok {| title := title; description := description; color := colour |}
  else
    Raise (ColorNotInRangeException colour).

(** lines 129-155: what is put into the webhook object before it is
    executed. *)
Definition layout (self : DiscordHandler) (msg : pystr) (colour : Z)
    (emoji : option pystr) (discord : message) : result message :=
  if should_format_as_code_block self msg then
    let '(first, remainder) := first_remainder msg in
    match max_line_length msg with
    | Raise e => Raise e
    | Ok longest =>
        let clipped := clip_content remainder DEFAULT_MAX_LEN true in
        if longest >? embed_line_wrap_threshold self then
          let clipped_msg := clip_content msg DEFAULT_MAX_LEN true in
          Ok (set_content (FENCE ++ fstr emoji ++ clipped_msg ++ FENCE) discord)
        else
          match DiscordEmbed (fstr emoji ++ first) (Some clipped) colour with
          | Raise e => Raise e
          | Ok embed => Ok (add_embed embed discord)
          end
    end
  else
    let title :=
      if truthy emoji then fstr emoji ++ msg else msg in
    match DiscordEmbed title None colour with
    | Raise e => Raise e
    | Ok embed => Ok (add_embed embed discord)
    end.

(** lines 96-167 *)
Fixpoint emit (w : world) (record : LogRecord) {struct w} : M DiscordHandler unit :=
  (self <- get ;;
   if reentry_barrier self then ret tt
   else
     modify (set_reentry_barrier true) ;;;
     try_finally
       (let discord := new_webhook self in
        try_except
          (msg <- lift (w_format w record) ;;
           colour <- lift (colour_of self record) ;;
           let emoji := emoji_of self record in
           discord <- lift (layout self msg colour emoji discord) ;;
           (* discord.execute() *)
           emit_event (EvSend discord) ;;;
           run_nested emit (fst (w_send w discord)) ;;;
           lift (snd (w_send w discord)))
          (fun e =>
             print_stderr (lit "Error from Discord logger " ++ exn_text e) ;;;
             handleError record))
       (modify (set_reentry_barrier false)))%py.

End Long.

(** ** src/handler.py *)

Module Minimal.

(** lines 9-16 *)
Definition DEFAULT_COLOURS : gmap (option Z) Z :=
  list_to_map
    [ (None, 2040357);
      (Some CRITICAL, 14362664);
      (Some ERROR, 14362664);
      (Some WARNING, 16497928);
      (Some INFO, 2196944);
      (Some DEBUG, 8947848) ].

(** lines 20-27 *)
Definition DEFAULT_EMOJIS : gmap (option Z) pystr :=
  list_to_map
    [ (None, []);
      (Some CRITICAL, EMOJI_SOS);
      (Some ERROR, EMOJI_CROSS);
      (Some WARNING, EMOJI_WARNING);
      (Some INFO, []);
      (Some DEBUG, []) ].

Record DiscordHandler := {
  webhook_url : pystr;
  service_name : pystr;
  colours : gmap (option Z) Z;
  emojis : gmap (option Z) pystr;
  avatar_url : option pystr;
  reentry_barrier : bool
}.

(** [__init__], lines 37-59 *)
Definition __init__ (service_name webhook_url : pystr)
    (colours : gmap (option Z) Z) (emojis : gmap (option Z) pystr)
    (avatar_url : option pystr) : DiscordHandler :=
  {| webhook_url := webhook_url;
     service_name := service_name;
     colours := colours;
     emojis := emojis;
     avatar_url := avatar_url;
     reentry_barrier := false |}.

Definition init_default (service_name webhook_url : pystr) : DiscordHandler :=
  __init__ service_name webhook_url DEFAULT_COLOURS DEFAULT_EMOJIS None.

(** [self.reentry_barrier = b] *)
Definition set_reentry_barrier (b : bool) (self : DiscordHandler) : DiscordHandler :=
  {| webhook_url := webhook_url self;
     service_name := service_name self;
     colours := colours self;
     emojis := emojis self;
     avatar_url := avatar_url self;
     reentry_barrier := b |}.

(** line 77: [self.colours.get(record.levelno, self.colours[None])];
    the default is an argument, so it is evaluated before the lookup. *)
Definition colour_of (self : DiscordHandler) (record : LogRecord) : result Z :=
  match getitem_None (colours self) with
  | Raise e => Raise e
  | Ok fallback =>
      Ok (match colours self !! Some (levelno record) with
          | Some c => c
          | None => fallback
          end)
  end.

(** line 78: [self.emojis.get(record.levelno, "")] *)
Definition emoji_of (self : DiscordHandler) (record : LogRecord) : pystr :=
  match emojis self !! Some (levelno record) with
  | Some e => e
  | None => []
  end.

(** lines 80-81 *)
Definition decorate (emoji msg : pystr) : pystr :=
  if str_truthy emoji then emoji ++ SPACE ++ msg else msg.

(** lines 84-85: the arguments of [discord.send]. *)
Definition outbound (self : DiscordHandler) (colour : Z) (msg : pystr) : message :=
  {| url := webhook_url self;
     username := service_name self;
     avatar := avatar_url self;
     rate_limit_retry_opt := None;
     content := None;
     embeds := [ {| title := msg; description := None; color := colour |} ] |}.

(** lines 61-91 *)
Fixpoint emit (w : world) (record : LogRecord) {struct w} : M DiscordHandler unit :=
  (self <- get ;;
   if reentry_barrier self then ret tt
   else
     modify (set_reentry_barrier true) ;;;
     try_finally
       (try_except
          (msg <- lift (w_format w record) ;;
           colour <- lift (colour_of self record) ;;
           let emoji := emoji_of self record in
           let msg := decorate emoji msg in
           lift (w_construct w (webhook_url self)) ;;;
           let discord := outbound self colour msg in
           (* discord.send(...) *)
           emit_event (EvSend discord) ;;;
           run_nested emit (fst (w_send w discord)) ;;;
           lift (snd (w_send w discord)))
          (fun e =>
             if is_http e then
               print_stderr (lit "Error from Discord logger " ++ exn_text e)
             else
               handleError record))
       (modify (set_reentry_barrier false)))%py.

End Minimal.

(** ** Reading a trace *)

Definition is_send (ev : event) : bool :=
  match ev with EvSend _ => true | _ => false end.

Definition is_stderr (ev : event) : bool :=
  match ev with EvStderr _ => true | _ => false end.

Definition count_sends (t : list event) : nat := length (List.filter is_send t).
Definition count_stderr (t : list event) : nat := length (List.filter is_stderr t).

(** The messages handed to the webhook client, in order. *)
Definition sent (t : list event) : list message :=
  flat_map (fun ev => match ev with EvSend m => [m] | _ => [] end) t.

(** The three components of the result of running a handler computation. *)
Definition final_state {S A} (x : S * list event * result A) : S := fst (fst x).
Definition trace_of {S A} (x : S * list event * result A) : list event := snd (fst x).
Definition outcome {S A} (x : S * list event * result A) : result A := snd x.


(** ** Worlds used in the examples *)

(** Every collaborator succeeds and the client logs nothing. *)
Definition quiet_world (text : pystr) : world :=
  {| w_format := fun _ => Ok text;
     w_construct := fun _ => Ok tt;
     w_send := fun _ => ([], Ok tt) |}.

(** [SyncWebhook.from_url] raises (a malformed URL). *)
Definition construct_fails_world (text : pystr) (e : exn) : world :=
  {| w_format := fun _ => Ok text;
     w_construct := fun _ => Raise e;
     w_send := fun _ => ([], Ok tt) |}.

(** [self.format(record)] raises. *)
Definition format_fails_world (e : exn) : world :=
  {| w_format := fun _ => Raise e;
     w_construct := fun _ => Ok tt;
     w_send := fun _ => ([], Ok tt) |}.

(** The send fails with [e], after the client has logged [r] through the
    framework (handled in world [w']). *)
Definition noisy_failing_world (text : pystr) (r : LogRecord) (w' : world) (e : exn) : world :=
  {| w_format := fun _ => Ok text;
     w_construct := fun _ => Ok tt;
     w_send := fun _ => ([(r, w')], Raise e) |}.

(** ** The words of the specification

    Definitions that follow the wording of the specification; the
    theorems below compare them with the definitions taken from the code. *)

(** The first line of a message: everything before the first newline. *)
Fixpoint first_line (s : pystr) : pystr :=
  match s with
  | [] => []
  | c :: s' => if N.eqb c NEWLINE then [] else c :: first_line s'
  end.

(** The remainder of a message: everything after the first newline. *)
Fixpoint after_first_newline (s : pystr) : pystr :=
  match s with
  | [] => []
  | c :: s' => if N.eqb c NEWLINE then s' else after_first_newline s'
  end.

(** The length of the longest line, by one scan of the message: [cur] is
    the length of the line being read, [best] the longest line seen. *)
Fixpoint longest_from (cur best : Z) (s : pystr) : Z :=
  match s with
  | [] => Z.max best cur
  | c :: s' =>
      if N.eqb c NEWLINE then longest_from 0 (Z.max best cur) s'
      else longest_from (cur + 1) best s'
  end.

Definition longest_line (s : pystr) : Z := longest_from 0 0 s.

(** The last [k] and the first [k] characters of a string. *)
Definition last_chars (k : nat) (s : pystr) : pystr := skipn (length s - k) s.
Definition first_chars (k : nat) (s : pystr) : pystr := firstn k s.

(** The emoji prefix: the emoji and one space when the lookup gave a
    non-empty string, nothing otherwise. *)
Definition emoji_prefix (looked_up : option pystr) : pystr :=
  match looked_up with
  | Some (c :: e) => (c :: e) ++ SPACE
  | _ => []
  end.

(** The two shapes of an outbound message of the long format: the sender
    name and avatar of the handler with one embed and no content, or with a
    content and no embed. *)
Definition embed_message (h : Long.DiscordHandler) (e : embed) : message :=
  {| url := Long.webhook_url h;
     username := Long.service_name h;
     avatar := Long.avatar_url h;
     rate_limit_retry_opt := Some (Long.rate_limit_retry h);
     content := None;
     embeds := [e] |}.

Definition content_message (h : Long.DiscordHandler) (c : pystr) : message :=
  {| url := Long.webhook_url h;
     username := Long.service_name h;
     avatar := Long.avatar_url h;
     rate_limit_retry_opt := Some (Long.rate_limit_retry h);
     content := Some c;
     embeds := [] |}.

(** Clipping as the specification words it for the default limit: a text
    of at most 1895 characters is kept, of a longer one the last 1900
    characters are kept, after an ellipsis. *)
Definition clip (s : pystr) : pystr :=
  if len s <=? 1895 then s else ELLIPSIS ++ last_chars 1900 s.

(** A colour the webhook API knows: 24 bits. *)
Definition colour_in_range (colour : Z) : Prop := 0 <= colour <= 16777215.



(** ** What the long format renders before the text

    Taken from the code, not from the specification: lines 143 and 145 of
    src/discord_logging/handler.py put the emoji prefix before the text when
    the lookup gave a string, and the text of [None] when it gave nothing
    (the defect of C8). *)
Definition rendered_prefix (looked_up : option pystr) : pystr :=
  match looked_up with
  | None => NONE_REPR
  | Some _ => emoji_prefix looked_up
  end.

(** ** Handlers and records used in the examples *)

Definition record_at (level : Z) : LogRecord :=
  {| levelno := level; record_body := [] |}.

(** A level of the application's own, between [INFO] and [WARNING]; it is
    a key of no default mapping. *)
Definition NOTICE : Z := 25.

Definition example_url : pystr := Eval cbv in lit "https://discord.example/api/webhooks/1/t".

Definition long_handler : Long.DiscordHandler :=
  Long.init_default (lit "svc") example_url.

Definition minimal_handler : Minimal.DiscordHandler :=
  Minimal.init_default (lit "svc") example_url.

(** Mappings given by the application: a question mark as the fallback
    emoji, and black as the colour of [INFO]. *)
Definition custom_emojis : gmap (option Z) pystr :=
  list_to_map [ (None, lit "?"); (Some INFO, []); (Some ERROR, EMOJI_CROSS) ].

Definition custom_colours : gmap (option Z) Z :=
  list_to_map [ (None, 2040357); (Some INFO, 0); (Some ERROR, 14362664) ].

Definition custom_long_handler : Long.DiscordHandler :=
  Long.__init__ (lit "svc") example_url custom_colours custom_emojis None true 60.

Definition custom_minimal_handler : Minimal.DiscordHandler :=
  Minimal.__init__ (lit "svc") example_url custom_colours custom_emojis None.

Definition boom : exn := Exn OtherException (lit "boom").
Definition too_many_requests : exn := Exn HTTPException (lit "429 Too Many Requests").

(** A message of [n] letters on one line. *)
Definition one_line (n : nat) : pystr := repeat 97%N n.

(** The lines printed to standard error and the records handed to
    [handleError], in order. *)
Definition stderr_lines (t : list event) : list pystr :=
  flat_map (fun ev => match ev with EvStderr line => [line] | _ => [] end) t.

Definition handled (t : list event) : list LogRecord :=
  flat_map (fun ev => match ev with EvHandleError r => [r] | _ => [] end) t.

(** The diagnostic both files print for an exception [e]. *)
Definition diagnostic (e : exn) : pystr :=
  lit "Error from Discord logger " ++ exn_text e.

(** [sep.join(parts)] for a one-character separator. *)
Fixpoint join (sep : char) (parts : list pystr) : pystr :=
  match parts with
  | [] => []
  | [p] => p
  | p :: rest => p ++ sep :: join sep rest
  end.

(** A handler of the long format that differs from the default one in its
    wrap threshold only. *)
Definition long_handler_with_threshold (threshold : Z) : Long.DiscordHandler :=
  Long.__init__ (lit "svc") example_url Long.DEFAULT_COLOURS Long.DEFAULT_EMOJIS
    None true threshold.



(** Colours without the fallback key. *)
Definition colours_without_fallback : gmap (option Z) Z :=
  list_to_map [ (Some INFO, 2196944); (Some ERROR, 14362664) ].

(** The colour of a level under the default mappings, as a table. *)
Definition default_colour (level : Z) : Z :=
  if level =? CRITICAL then 14362664
  else if level =? ERROR then 14362664
  else if level =? WARNING then 16497928
  else if level =? INFO then 2196944
  else if level =? DEBUG then 8947848
  else 2040357.

(** The send fails with [e] and the client logs nothing. *)
Definition failing_world (text : pystr) (e : exn) : world :=
  {| w_format := fun _ => Ok text;
     w_construct := fun _ => Ok tt;
     w_send := fun _ => ([], Raise e) |}.

(** Unfolds the combinators of handler computations. *)
Ltac unfold_monad :=
  unfold bind, ret, raise, lift, get, modify, emit_event, try_except, try_finally,
    print_stderr, handleError.

(** Counting the events of a concrete trace: no message was sent (and
    [why] shows which step stopped the call), or exactly one was. *)
Ltac nothing_sent why :=
  unfold count_sends, count_stderr, trace_of; simpl;
  split; [lia | split; [lia | split; [intros _; why | intros _; reflexivity]]].

Ltac one_sent Hno :=
  unfold count_sends, count_stderr, trace_of; simpl;
  split; [lia | split; [lia | split; [discriminate | intros H; now destruct Hno]]].

(** * Properties *)

(** ** Slices and Long.clip_content *)

Lemma len_app (s t : pystr) : len (s ++ t) = len s + len t.
Proof. unfold len. rewrite length_app. lia. Qed.

Lemma len_nonneg (s : pystr) : 0 <= len s.
Proof. unfold len. lia. Qed.

Lemma len_last_chars (k : nat) (s : pystr) :
  len (last_chars k s) = Z.min (Z.of_nat k) (len s).
Proof. unfold last_chars, len. rewrite length_drop. lia. Qed.

Lemma len_first_chars (k : nat) (s : pystr) :
  len (first_chars k s) = Z.min (Z.of_nat k) (len s).
Proof. unfold first_chars, len. rewrite length_take. lia. Qed.

(** [s[-m:]] keeps the last [min(len(s), m)] characters when [m] is
    positive. *)
Lemma slice_tail (s : pystr) (m : Z) :
  1 <= m ->
  slice s (Some (- m)) None = last_chars (Z.to_nat (Z.min (len s) m)) s.
Proof.
  intros Hm. unfold slice, adjust_index, last_chars.
  pose proof (len_nonneg s) as Hn.
  destruct (- m <? 0) eqn:E1; [| apply Z.ltb_ge in E1; lia].
  destruct (- m + len s <? 0) eqn:E2.
  - apply Z.ltb_lt in E2.
    replace (Z.min (len s) m) with (len s) by lia.
    unfold len. rewrite Nat2Z.id, Nat.sub_diag. simpl.
    rewrite Z.sub_0_r, Nat2Z.id. apply firstn_all.
  - apply Z.ltb_ge in E2.
    replace (Z.min (len s) m) with m by lia.
    replace (Z.to_nat (- m + len s)) with (length s - Z.to_nat m)%nat
      by (unfold len in *; lia).
    apply take_ge. rewrite length_drop. unfold len in *. lia.
Qed.

(** [s[-0:]] is [s[0:]]: the whole string. *)
Lemma slice_tail_zero (s : pystr) : slice s (Some (- 0)) None = s.
Proof.
  unfold slice, adjust_index. change (- 0) with 0.
  change (0 <? 0) with false. cbv iota.
  pose proof (len_nonneg s).
  destruct (len s <? 0) eqn:E; [apply Z.ltb_lt in E; lia |].
  simpl drop. rewrite Z.sub_0_r. unfold len. rewrite Nat2Z.id. apply firstn_all.
Qed.

(** [s[0:m]] keeps the first [min(len(s), m)] characters when [m] is not
    negative. *)
Lemma slice_head (s : pystr) (m : Z) :
  0 <= m ->
  slice s (Some 0) (Some m) = first_chars (Z.to_nat (Z.min (len s) m)) s.
Proof.
  intros Hm. unfold slice, adjust_index, first_chars.
  pose proof (len_nonneg s) as Hn.
  change (0 <? 0) with false. cbv iota.
  destruct (len s <? 0) eqn:E0; [apply Z.ltb_lt in E0; lia |].
  destruct (m <? 0) eqn:E1; [apply Z.ltb_lt in E1; lia |].
  simpl drop. rewrite Z.sub_0_r.
  destruct (len s <? m) eqn:E2.
  - apply Z.ltb_lt in E2. now replace (Z.min (len s) m) with (len s) by lia.
  - apply Z.ltb_ge in E2. now replace (Z.min (len s) m) with m by lia.
Qed.

Lemma clip_content_short (content : pystr) (max_len : Z) (clip_to_end : bool) :
  len content <= max_len - 5 ->
  Long.clip_content content max_len clip_to_end = content.
Proof.
  intros H. unfold Long.clip_content.
  destruct (len content >? max_len - 5) eqn:E; [| reflexivity].
  apply Z.gtb_lt in E. lia.
Qed.

Lemma clip_content_tail (content : pystr) (max_len : Z) :
  1 <= max_len ->
  len content > max_len - 5 ->
  Long.clip_content content max_len true =
    ELLIPSIS ++ last_chars (Z.to_nat (Z.min (len content) max_len)) content.
Proof.
  intros Hm H. unfold Long.clip_content.
  destruct (len content >? max_len - 5) eqn:E.
  - now rewrite slice_tail.
  - rewrite Z.gtb_ltb in E. apply Z.ltb_ge in E. lia.
Qed.

Lemma clip_content_head (content : pystr) (max_len : Z) :
  0 <= max_len ->
  len content > max_len - 5 ->
  Long.clip_content content max_len false =
    first_chars (Z.to_nat (Z.min (len content) max_len)) content ++ ELLIPSIS.
Proof.
  intros Hm H. unfold Long.clip_content.
  destruct (len content >? max_len - 5) eqn:E.
  - now rewrite slice_head.
  - rewrite Z.gtb_ltb in E. apply Z.ltb_ge in E. lia.
Qed.

(** The result of [Long.clip_content] is never longer than [max_len + 3] when
    [max_len] is at least 5 (shared by C7 and C10). *)
Lemma clip_content_len (content : pystr) (max_len : Z) (clip_to_end : bool) :
  5 <= max_len ->
  len (Long.clip_content content max_len clip_to_end) <= max_len + 3.
Proof.
  intros Hm.
  destruct (Z_le_gt_dec (len content) (max_len - 5)) as [Hs | Hl].
  - rewrite clip_content_short by assumption. lia.
  - destruct clip_to_end.
    + rewrite clip_content_tail by lia.
      rewrite len_app, len_last_chars. change (len ELLIPSIS) with 3. lia.
    + rewrite clip_content_head by lia.
      rewrite len_app, len_first_chars. change (len ELLIPSIS) with 3. lia.
Qed.

(** The default clipping of the code is the clipping of the
    specification. *)
Lemma clip_spec (s : pystr) :
  Long.clip_content s Long.DEFAULT_MAX_LEN true = clip s.
Proof.
  unfold clip, Long.DEFAULT_MAX_LEN.
  destruct (len s <=? 1895) eqn:E.
  - apply Z.leb_le in E. apply clip_content_short. lia.
  - apply Z.leb_gt in E. rewrite clip_content_tail by lia.
    f_equal. unfold last_chars. f_equal. unfold len in *. lia.
Qed.

(** C6, as stated, fails: with [max_len = 10] a content of 7 characters is
    longer than [max_len - 5], yet the tail policy cannot return 10
    characters of it; it returns the ellipsis and all 7. *)
Lemma C6_counterexample :
  len (lit "abcdefg") > 10 - 5 /\
  ~ (exists kept : pystr,
        Long.clip_content (lit "abcdefg") 10 true = ELLIPSIS ++ kept /\ len kept = 10).
Proof.
  split; [reflexivity |].
  intros (kept & Hclip & Hlen).
  vm_compute in Hclip. injection Hclip as <-.
  vm_compute in Hlen. discriminate Hlen.
Qed.

(** C6 (amended): for a content of length [L] and a maximum [M >= 1],
    when [L > M - 5] the tail policy returns the ellipsis followed by the
    last [min(L, M)] characters (exactly [M] of them only when [L >= M]) and
    the head policy returns the first [min(L, M)] characters followed by the
    ellipsis; when [L <= M - 5] the content is returned unchanged. *)
Theorem C6_clip_content_amended (content : pystr) (M : Z) :
  1 <= M ->
  let L := len content in
  let k := Z.to_nat (Z.min L M) in
  (L > M - 5 ->
     Long.clip_content content M true = ELLIPSIS ++ last_chars k content /\
     len (last_chars k content) = Z.min L M /\
     Long.clip_content content M false = first_chars k content ++ ELLIPSIS /\
     len (first_chars k content) = Z.min L M) /\
  (L <= M - 5 ->
     Long.clip_content content M true = content /\
     Long.clip_content content M false = content) /\
  len ELLIPSIS = 3.
Proof.
  intros HM L k. pose proof (len_nonneg content) as HL. fold L in HL.
  split; [| split; [| reflexivity]].
  - intros Hlong. repeat split.
    + now apply clip_content_tail.
    + rewrite len_last_chars. subst k L. lia.
    + apply clip_content_head; [lia | assumption].
    + rewrite len_first_chars. subst k L. lia.
  - intros Hshort. split; now apply clip_content_short.
Qed.

Lemma C6_clip_content_amended_witness :
  Long.clip_content (lit "abcdefg") 10 true = lit "...abcdefg" /\
  Long.clip_content (lit "abcdefghijklmnop") 10 true = lit "...ghijklmnop" /\
  Long.clip_content (lit "abcdefghijklmnop") 10 false = lit "abcdefghij..." /\
  Long.clip_content (lit "abcde") 10 true = lit "abcde".
Proof.
  assert (H1 : 1 <= 10) by lia.
  destruct (C6_clip_content_amended (lit "abcdefg") 10 H1) as (Ha & _ & _).
  destruct (C6_clip_content_amended (lit "abcdefghijklmnop") 10 H1) as (Hb & _ & _).
  destruct (C6_clip_content_amended (lit "abcde") 10 H1) as (_ & Hc & _).
  destruct Ha as (Ha & _); [reflexivity |].
  destruct Hb as (Hb1 & _ & Hb2 & _); [reflexivity |].
  destruct Hc as (Hc & _); [vm_compute; discriminate |].
  rewrite Ha, Hb1, Hb2, Hc. repeat split.
Defined.

(** C10: for every content and every [max_len >= 5], [Long.clip_content] (a
    total function: slicing a string cannot raise) returns at most
    [max_len + 3] characters; with the default [max_len] of 1900 a result of
    1903 characters does occur; and when
    [max_len - 5 < len(content) <= max_len] the tail policy returns the
    ellipsis followed by the whole content. *)
Theorem C10_clip_content_bound (content : pystr) (max_len : Z) (clip_to_end : bool) :
  5 <= max_len ->
  len (Long.clip_content content max_len clip_to_end) <= max_len + 3 /\
  (max_len - 5 < len content <= max_len ->
     Long.clip_content content max_len true = ELLIPSIS ++ content) /\
  (exists c : pystr, len (Long.clip_content c Long.DEFAULT_MAX_LEN true) = Long.DEFAULT_MAX_LEN + 3).
Proof.
  intros HM. split; [| split].
  - now apply clip_content_len.
  - intros [Hlo Hhi]. rewrite clip_content_tail by lia.
    f_equal. unfold last_chars.
    replace (Z.min (len content) max_len) with (len content) by lia.
    unfold len. rewrite Nat2Z.id, Nat.sub_diag. reflexivity.
  - exists (one_line 1900). vm_compute. reflexivity.
Qed.

Lemma C10_clip_content_bound_witness :
  len (Long.clip_content (lit "abcdefg") 10 true) <= 13 /\
  Long.clip_content (lit "abcdefg") 10 true = ELLIPSIS ++ lit "abcdefg".
Proof.
  assert (H5 : 5 <= 10) by lia.
  destruct (C10_clip_content_bound (lit "abcdefg") 10 true H5) as (Hlen & Hwhole & _).
  split; [exact Hlen |].
  apply Hwhole. vm_compute. split; [reflexivity | discriminate].
Defined.

(** ** The shape of a call of emit *)

(** *** src/discord_logging/handler.py *)

Lemma Long_emit_unfold (w : world) (record : LogRecord) :
  Long.emit w record =
    (self <- get ;;
     if Long.reentry_barrier self then ret tt
     else
       modify (Long.set_reentry_barrier true) ;;;
       try_finally
         (let discord := Long.new_webhook self in
          try_except
            (msg <- lift (w_format w record) ;;
             colour <- lift (Long.colour_of self record) ;;
             let emoji := Long.emoji_of self record in
             discord <- lift (Long.layout self msg colour emoji discord) ;;
             emit_event (EvSend discord) ;;;
             run_nested Long.emit (fst (w_send w discord)) ;;;
             lift (snd (w_send w discord)))
            (fun e =>
               print_stderr (lit "Error from Discord logger " ++ exn_text e) ;;;
               handleError record))
         (modify (Long.set_reentry_barrier false)))%py.
Proof. destruct w; reflexivity. Qed.

Lemma Long_emit_barrier_set (w : world) (record : LogRecord) (h : Long.DiscordHandler) :
  Long.reentry_barrier h = true ->
  Long.emit w record h = (h, [], Ok tt).
Proof.
  intros Hb. rewrite Long_emit_unfold. unfold_monad. now rewrite Hb.
Qed.

(** Whatever the client logs while the barrier is set is dropped. *)
Lemma Long_run_nested_barrier_set (nested : list (LogRecord * world)) (h : Long.DiscordHandler) :
  Long.reentry_barrier h = true ->
  run_nested Long.emit nested h = (h, [], Ok tt).
Proof.
  intros Hb. induction nested as [| [r w] rest IH]; simpl.
  - reflexivity.
  - unfold bind. rewrite Long_emit_barrier_set by assumption. now rewrite IH.
Qed.

Lemma Long_set_clear (h : Long.DiscordHandler) :
  Long.reentry_barrier h = false ->
  Long.set_reentry_barrier false (Long.set_reentry_barrier true h) = h.
Proof. destruct h; simpl; intros ->; reflexivity. Qed.

(** The layout step cannot fail: a split always yields a line. *)
Lemma str_split_nonempty (sep : char) (maxsplit : option nat) (s : pystr) :
  str_split sep maxsplit s <> [].
Proof.
  revert maxsplit. induction s as [| c s IH]; intros maxsplit; simpl.
  - discriminate.
  - destruct (N.eqb c sep).
    + destruct maxsplit as [[| k] |]; discriminate.
    + destruct (str_split sep maxsplit s); discriminate.
Qed.

Lemma max_line_length_ok (msg : pystr) :
  exists n, Long.max_line_length msg = Ok n.
Proof.
  unfold Long.max_line_length.
  destruct (str_split NEWLINE None msg) eqn:E.
  - now apply str_split_nonempty in E.
  - simpl. eauto.
Qed.

Lemma DiscordEmbed_ok (title : pystr) (description : option pystr) (colour : Z) :
  colour_in_range colour ->
  Long.DiscordEmbed title description colour =
    Ok {| title := title; description := description; color := colour |}.
Proof.
  intros [Hlo Hhi]. unfold Long.DiscordEmbed, Long.COLOUR_MAX.
  apply Z.leb_le in Hlo, Hhi. now rewrite Hlo, Hhi.
Qed.

Lemma DiscordEmbed_refuses (title : pystr) (description : option pystr) (colour : Z) :
  ~ colour_in_range colour ->
  Long.DiscordEmbed title description colour =
    Raise (Long.ColorNotInRangeException colour).
Proof.
  intros Hout. unfold Long.DiscordEmbed, Long.COLOUR_MAX.
  destruct (0 <=? colour) eqn:Hlo; [| reflexivity].
  destruct (colour <=? 16777215) eqn:Hhi; [| reflexivity].
  apply Z.leb_le in Hlo, Hhi. destruct Hout. split; assumption.
Qed.

(** With a colour in range the layout step cannot fail. *)
Lemma Long_layout_ok (h : Long.DiscordHandler) (msg : pystr) (colour : Z)
    (emoji : option pystr) (discord : message) :
  colour_in_range colour ->
  exists m, Long.layout h msg colour emoji discord = Ok m.
Proof.
  intros Hin. unfold Long.layout.
  destruct (Long.should_format_as_code_block h msg).
  - destruct (Long.first_remainder msg) as [first remainder].
    destruct (max_line_length_ok msg) as [n ->].
    destruct (n >? Long.embed_line_wrap_threshold h); [eauto |].
    rewrite DiscordEmbed_ok by assumption. eauto.
  - rewrite DiscordEmbed_ok by assumption. eauto.
Qed.

(** A call that starts with the barrier clear, step by step: the
    handler is left as it was found, and the trace and the outcome are
    decided by the first collaborator that fails. *)
Lemma Long_emit_clear (w : world) (record : LogRecord) (h : Long.DiscordHandler) :
  Long.reentry_barrier h = false ->
  Long.emit w record h =
    let failed e :=
      [EvStderr (lit "Error from Discord logger " ++ exn_text e); EvHandleError record] in
    match w_format w record with
    | Raise e => (h, failed e, Ok tt)
    | Ok msg =>
        match Long.colour_of h record with
        | Raise e => (h, failed e, Ok tt)
        | Ok colour =>
            match Long.layout h msg colour (Long.emoji_of h record)
                    (Long.new_webhook h) with
            | Raise e => (h, failed e, Ok tt)
            | Ok m =>
                match snd (w_send w m) with
                | Ok _ => (h, [EvSend m], Ok tt)
                | Raise e => (h, EvSend m :: failed e, Ok tt)
                end
            end
        end
    end.
Proof.
  intros Hb. rewrite Long_emit_unfold. unfold_monad. rewrite Hb. cbv zeta.
  destruct (w_format w record) as [msg | e]; simpl;
    [| now rewrite Long_set_clear].
  destruct (Long.colour_of h record) as [colour | e]; simpl;
    [| now rewrite Long_set_clear].
  destruct (Long.layout h msg colour (Long.emoji_of h record) (Long.new_webhook h))
    as [m | e]; simpl; [| now rewrite Long_set_clear].
  rewrite Long_run_nested_barrier_set by reflexivity.
  destruct (snd (w_send w m)) as [[] | e]; simpl; now rewrite Long_set_clear.
Qed.

(** *** src/handler.py *)

Lemma Minimal_emit_unfold (w : world) (record : LogRecord) :
  Minimal.emit w record =
    (self <- get ;;
     if Minimal.reentry_barrier self then ret tt
     else
       modify (Minimal.set_reentry_barrier true) ;;;
       try_finally
         (try_except
            (msg <- lift (w_format w record) ;;
             colour <- lift (Minimal.colour_of self record) ;;
             let emoji := Minimal.emoji_of self record in
             let msg := Minimal.decorate emoji msg in
             lift (w_construct w (Minimal.webhook_url self)) ;;;
             let discord := Minimal.outbound self colour msg in
             emit_event (EvSend discord) ;;;
             run_nested Minimal.emit (fst (w_send w discord)) ;;;
             lift (snd (w_send w discord)))
            (fun e =>
               if is_http e then
                 print_stderr (lit "Error from Discord logger " ++ exn_text e)
               else
                 handleError record))
         (modify (Minimal.set_reentry_barrier false)))%py.
Proof. destruct w; reflexivity. Qed.

Lemma Minimal_emit_barrier_set (w : world) (record : LogRecord) (h : Minimal.DiscordHandler) :
  Minimal.reentry_barrier h = true ->
  Minimal.emit w record h = (h, [], Ok tt).
Proof.
  intros Hb. rewrite Minimal_emit_unfold. unfold_monad. now rewrite Hb.
Qed.

Lemma Minimal_run_nested_barrier_set (nested : list (LogRecord * world))
    (h : Minimal.DiscordHandler) :
  Minimal.reentry_barrier h = true ->
  run_nested Minimal.emit nested h = (h, [], Ok tt).
Proof.
  intros Hb. induction nested as [| [r w] rest IH]; simpl.
  - reflexivity.
  - unfold bind. rewrite Minimal_emit_barrier_set by assumption. now rewrite IH.
Qed.

Lemma Minimal_set_clear (h : Minimal.DiscordHandler) :
  Minimal.reentry_barrier h = false ->
  Minimal.set_reentry_barrier false (Minimal.set_reentry_barrier true h) = h.
Proof. destruct h; simpl; intros ->; reflexivity. Qed.

(** A call that starts with the barrier clear, step by step. *)
Lemma Minimal_emit_clear (w : world) (record : LogRecord) (h : Minimal.DiscordHandler) :
  Minimal.reentry_barrier h = false ->
  Minimal.emit w record h =
    let failed e :=
      if is_http e then [EvStderr (lit "Error from Discord logger " ++ exn_text e)]
      else [EvHandleError record] in
    match w_format w record with
    | Raise e => (h, failed e, Ok tt)
    | Ok msg =>
        match Minimal.colour_of h record with
        | Raise e => (h, failed e, Ok tt)
        | Ok colour =>
            match w_construct w (Minimal.webhook_url h) with
            | Raise e => (h, failed e, Ok tt)
            | Ok _ =>
                let m := Minimal.outbound h colour
                           (Minimal.decorate (Minimal.emoji_of h record) msg) in
                match snd (w_send w m) with
                | Ok _ => (h, [EvSend m], Ok tt)
                | Raise e => (h, EvSend m :: failed e, Ok tt)
                end
            end
        end
    end.
Proof.
  intros Hb. rewrite Minimal_emit_unfold. unfold_monad. rewrite Hb.
  destruct (w_format w record) as [msg | e]; simpl;
    [| destruct (is_http e); simpl; now rewrite Minimal_set_clear].
  destruct (Minimal.colour_of h record) as [colour | e]; simpl;
    [| destruct (is_http e); simpl; now rewrite Minimal_set_clear].
  destruct (w_construct w (Minimal.webhook_url h)) as [[] | e]; simpl;
    [| destruct (is_http e); simpl; now rewrite Minimal_set_clear].
  rewrite Minimal_run_nested_barrier_set by reflexivity.
  destruct (snd (w_send w _)) as [[] | e]; simpl;
    [| destruct (is_http e); simpl]; now rewrite Minimal_set_clear.
Qed.

(** ** Exceptions leaving emit *)

(** In src/handler.py everything between the barrier and the [finally]
    is inside the [try]: [emit] returns normally in every world. *)
Lemma Minimal_emit_returns (w : world) (record : LogRecord) (h : Minimal.DiscordHandler) :
  outcome (Minimal.emit w record h) = Ok tt.
Proof.
  destruct (Minimal.reentry_barrier h) eqn:Hb.
  - now rewrite Minimal_emit_barrier_set.
  - rewrite Minimal_emit_clear by assumption. cbv zeta.
    repeat match goal with
           | |- context [match ?x with _ => _ end] => destruct x
           end; reflexivity.
Qed.

(** So it does in src/discord_logging/handler.py: constructing the
    client cannot fail, and everything after it is inside the inner [try],
    whose handler catches every exception. *)
Lemma Long_emit_returns (w : world) (record : LogRecord) (h : Long.DiscordHandler) :
  outcome (Long.emit w record h) = Ok tt.
Proof.
  destruct (Long.reentry_barrier h) eqn:Hb.
  - now rewrite Long_emit_barrier_set.
  - rewrite Long_emit_clear by assumption. cbv zeta.
    repeat match goal with
           | |- context [match ?x with _ => _ end] => destruct x
           end; reflexivity.
Qed.

(** C1: a call of [emit] returns normally, for every record, every state
    of the handler and every behaviour of the collaborators: whatever
    formatting the record, looking up the colour, building the embed,
    constructing the client from the URL or sending raises (an
    [HTTPException] or any other exception) is caught inside [emit], in both
    files. *)
Theorem C1_emit_never_raises (w : world) (record : LogRecord)
    (hl : Long.DiscordHandler) (hm : Minimal.DiscordHandler) :
  outcome (Long.emit w record hl) = Ok tt /\
  outcome (Minimal.emit w record hm) = Ok tt.
Proof.
  split; [apply Long_emit_returns | apply Minimal_emit_returns].
Qed.

(** ** The reentrancy barrier *)

(** C2: with the barrier already set, [emit] returns at once: the handler
    is unchanged, the trace is empty (nothing sent, nothing written to
    standard error) and no exception is raised, in both files; so the
    records the client logs while a message is in flight are all dropped. *)
Theorem C2_reentrant_emit_is_noop (w : world) (record : LogRecord)
    (nested : list (LogRecord * world))
    (hl : Long.DiscordHandler) (hm : Minimal.DiscordHandler) :
  Long.reentry_barrier hl = true ->
  Minimal.reentry_barrier hm = true ->
  Long.emit w record hl = (hl, [], Ok tt) /\
  Minimal.emit w record hm = (hm, [], Ok tt) /\
  run_nested Long.emit nested hl = (hl, [], Ok tt) /\
  run_nested Minimal.emit nested hm = (hm, [], Ok tt).
Proof.
  intros Hl Hm. repeat split.
  - now apply Long_emit_barrier_set.
  - now apply Minimal_emit_barrier_set.
  - now apply Long_run_nested_barrier_set.
  - now apply Minimal_run_nested_barrier_set.
Qed.

Lemma C2_reentrant_emit_is_noop_witness :
  let hl := Long.set_reentry_barrier true long_handler in
  let hm := Minimal.set_reentry_barrier true minimal_handler in
  Long.emit (quiet_world (lit "hello")) (record_at ERROR) hl = (hl, [], Ok tt) /\
  Minimal.emit (quiet_world (lit "hello")) (record_at ERROR) hm = (hm, [], Ok tt).
Proof.
  cbv zeta.
  destruct (C2_reentrant_emit_is_noop (quiet_world (lit "hello")) (record_at ERROR) []
              (Long.set_reentry_barrier true long_handler)
              (Minimal.set_reentry_barrier true minimal_handler)
              eq_refl eq_refl) as (Hl & Hm & _).
  split; assumption.
Defined.

Lemma Long_emit_final_state (w : world) (record : LogRecord) (h : Long.DiscordHandler) :
  final_state (Long.emit w record h) = h.
Proof.
  destruct (Long.reentry_barrier h) eqn:Hb.
  - now rewrite Long_emit_barrier_set.
  - rewrite Long_emit_clear by assumption. cbv zeta.
    repeat match goal with
           | |- context [match ?x with _ => _ end] => destruct x
           end; reflexivity.
Qed.

Lemma Minimal_emit_final_state (w : world) (record : LogRecord) (h : Minimal.DiscordHandler) :
  final_state (Minimal.emit w record h) = h.
Proof.
  destruct (Minimal.reentry_barrier h) eqn:Hb.
  - now rewrite Minimal_emit_barrier_set.
  - rewrite Minimal_emit_clear by assumption. cbv zeta.
    repeat match goal with
           | |- context [match ?x with _ => _ end] => destruct x
           end; reflexivity.
Qed.

(** A call that starts with the barrier clear is seen from outside: it
    raises, or it leaves at least one event. *)
Lemma Long_emit_clear_observable (w : world) (record : LogRecord) (h : Long.DiscordHandler) :
  Long.reentry_barrier h = false ->
  (trace_of (Long.emit w record h), outcome (Long.emit w record h)) <> ([], Ok tt).
Proof.
  intros Hb. rewrite Long_emit_clear by assumption. cbv zeta.
  repeat match goal with
         | |- context [match ?x with _ => _ end] => destruct x
         end; discriminate.
Qed.

Lemma Minimal_emit_clear_observable (w : world) (record : LogRecord)
    (h : Minimal.DiscordHandler) :
  Minimal.reentry_barrier h = false ->
  (trace_of (Minimal.emit w record h), outcome (Minimal.emit w record h)) <> ([], Ok tt).
Proof.
  intros Hb. rewrite Minimal_emit_clear by assumption. cbv zeta.
  repeat match goal with
         | |- context [match ?x with _ => _ end] => destruct x
         end; discriminate.
Qed.

(** C3: a call of [emit] that starts with the barrier clear ends with the
    barrier clear (the handler is exactly as before the call), whether the
    message was delivered, the failure was handled, or an exception left
    [emit]; and the next call, in any world, is not cut short by the
    barrier: it raises or leaves an event, which a cut-short call never
    does. *)
Theorem C3_barrier_cleared_after_emit (w w' : world) (record record' : LogRecord)
    (hl : Long.DiscordHandler) (hm : Minimal.DiscordHandler) :
  Long.reentry_barrier hl = false ->
  Minimal.reentry_barrier hm = false ->
  let hl' := final_state (Long.emit w record hl) in
  let hm' := final_state (Minimal.emit w record hm) in
  (Long.reentry_barrier hl' = false /\ hl' = hl /\
   (trace_of (Long.emit w' record' hl'), outcome (Long.emit w' record' hl')) <> ([], Ok tt)) /\
  (Minimal.reentry_barrier hm' = false /\ hm' = hm /\
   (trace_of (Minimal.emit w' record' hm'), outcome (Minimal.emit w' record' hm'))
     <> ([], Ok tt)).
Proof.
  intros Hl Hm hl' hm'. subst hl' hm'.
  rewrite Long_emit_final_state, Minimal_emit_final_state.
  repeat split; try assumption.
  - now apply Long_emit_clear_observable.
  - now apply Minimal_emit_clear_observable.
Qed.

Lemma C3_barrier_cleared_after_emit_witness :
  let w := noisy_failing_world (lit "hello") (record_at DEBUG) (quiet_world (lit "retrying"))
             too_many_requests in
  Long.reentry_barrier (final_state (Long.emit w (record_at ERROR) long_handler)) = false /\
  Minimal.reentry_barrier (final_state (Minimal.emit w (record_at ERROR) minimal_handler)) = false.
Proof.
  cbv zeta.
  destruct (C3_barrier_cleared_after_emit
              (noisy_failing_world (lit "hello") (record_at DEBUG)
                 (quiet_world (lit "retrying")) too_many_requests)
              (quiet_world (lit "again")) (record_at ERROR) (record_at INFO)
              long_handler minimal_handler eq_refl eq_refl)
    as ((Hl & _) & (Hm & _)).
  split; assumption.
Defined.

(** ** Colour and emoji of a record *)

(** What src/handler.py puts before the text is the emoji prefix of the
    looked-up emoji. *)
Lemma Minimal_decorate_prefix (h : Minimal.DiscordHandler) (record : LogRecord) (msg : pystr) :
  Minimal.decorate (Minimal.emoji_of h record) msg =
    emoji_prefix (Minimal.emojis h !! Some (levelno record)) ++ msg.
Proof.
  unfold Minimal.decorate, Minimal.emoji_of, emoji_prefix.
  destruct (Minimal.emojis h !! Some (levelno record)) as [[| c e] |]; simpl;
    try reflexivity.
  now rewrite <- app_assoc.
Qed.

(** So do the f-strings of src/discord_logging/handler.py, unless the
    lookup gave nothing. *)
Lemma Long_fstr_emoji_of (h : Long.DiscordHandler) (record : LogRecord) :
  fstr (Long.emoji_of h record) =
    rendered_prefix (Long.emojis h !! Some (levelno record)).
Proof.
  unfold Long.emoji_of, rendered_prefix, emoji_prefix.
  destruct (Long.emojis h !! Some (levelno record)) as [[| c e] |]; reflexivity.
Qed.

Lemma Long_short_title (h : Long.DiscordHandler) (record : LogRecord) (msg : pystr) :
  (if truthy (Long.emoji_of h record) then fstr (Long.emoji_of h record) ++ msg else msg) =
    emoji_prefix (Long.emojis h !! Some (levelno record)) ++ msg.
Proof.
  unfold Long.emoji_of, emoji_prefix.
  destruct (Long.emojis h !! Some (levelno record)) as [[| c e] |]; reflexivity.
Qed.

(** The colour lookups: both use the colour under the fallback key for a
    level that is no key of the mapping; line 122 of
    src/discord_logging/handler.py also does so for a colour that is 0. *)
Lemma Minimal_colour_of_spec (h : Minimal.DiscordHandler) (record : LogRecord) (fallback : Z) :
  Minimal.colours h !! (None : option Z) = Some fallback ->
  Minimal.colour_of h record =
    Ok (match Minimal.colours h !! Some (levelno record) with
        | Some c => c
        | None => fallback
        end).
Proof. intros H. unfold Minimal.colour_of, getitem_None. now rewrite H. Qed.

Lemma Long_colour_of_spec (h : Long.DiscordHandler) (record : LogRecord) (fallback : Z) :
  Long.colours h !! (None : option Z) = Some fallback ->
  Long.colour_of h record =
    Ok (match Long.colours h !! Some (levelno record) with
        | Some c => if c =? 0 then fallback else c
        | None => fallback
        end).
Proof.
  intros H. unfold Long.colour_of, getitem_None. rewrite H.
  destruct (Long.colours h !! Some (levelno record)) as [c |]; [| reflexivity].
  now destruct (c =? 0).
Qed.

(** C4 (the code departs from it): the emoji stored under the fallback
    key is never read.  With a question mark as fallback emoji, a record of
    a level that is a key of no mapping is sent with the fallback colour but
    without the question mark, by both files; and in
    src/discord_logging/handler.py a level configured with colour 0 gets the
    fallback colour instead of its own. *)
Theorem C4_fallback_emoji_never_used :
  let w := quiet_world (lit "hello") in
  let untitled c :=
    [ {| title := lit "hello"; description := None; color := c |} ] in
  custom_emojis !! Some NOTICE = None /\
  custom_emojis !! (None : option Z) = Some (lit "?") /\
  custom_colours !! (None : option Z) = Some 2040357 /\
  List.map embeds (sent (trace_of (Minimal.emit w (record_at NOTICE) custom_minimal_handler)))
    = [untitled 2040357] /\
  List.map embeds (sent (trace_of (Long.emit w (record_at NOTICE) custom_long_handler)))
    = [untitled 2040357] /\
  custom_colours !! Some INFO = Some 0 /\
  List.map embeds (sent (trace_of (Long.emit w (record_at INFO) custom_long_handler)))
    = [untitled 2040357] /\
  List.map embeds (sent (trace_of (Minimal.emit w (record_at INFO) custom_minimal_handler)))
    = [untitled 0].
Proof.
  cbv zeta. repeat split; vm_compute; reflexivity.
Qed.

(** C8 (the code departs from it): in src/discord_logging/handler.py a
    lookup that yields no emoji puts the text of [None] before the message
    as soon as the message has two lines or one long line; only the short
    embed is sent without a prefix.  src/handler.py sends the bare message. *)
Theorem C8_missing_emoji_rendered_as_None :
  let two_lines := lit "ab" ++ [NEWLINE] ++ lit "cd" in
  Long.DEFAULT_EMOJIS !! Some NOTICE = None /\
  List.map embeds
    (sent (trace_of (Long.emit (quiet_world two_lines) (record_at NOTICE) long_handler)))
    = [[ {| title := lit "Noneab"; description := Some (lit "cd"); color := 2040357 |} ]] /\
  List.map content
    (sent (trace_of (Long.emit (quiet_world (one_line 61)) (record_at NOTICE) long_handler)))
    = [Some (FENCE ++ lit "None" ++ one_line 61 ++ FENCE)] /\
  List.map embeds
    (sent (trace_of (Long.emit (quiet_world (lit "ab")) (record_at NOTICE) long_handler)))
    = [[ {| title := lit "ab"; description := None; color := 2040357 |} ]] /\
  List.map embeds
    (sent (trace_of (Minimal.emit (quiet_world two_lines) (record_at NOTICE) minimal_handler)))
    = [[ {| title := two_lines; description := None; color := 2040357 |} ]].
Proof.
  cbv zeta. repeat split; vm_compute; reflexivity.
Qed.

(** ** Lines of a message *)

Lemma str_split_no_more (sep : char) (s : pystr) :
  str_split sep (Some 0%nat) s = [s].
Proof.
  induction s as [| c s IH]; simpl; [reflexivity |].
  destruct (N.eqb c sep); [reflexivity |]. now rewrite IH.
Qed.

(** [msg.split("\n", maxsplit=1)] cuts at the first newline, if any. *)
Lemma str_split_once (s : pystr) :
  str_split NEWLINE (Some 1%nat) s =
    if contains NEWLINE s then [first_line s; after_first_newline s] else [s].
Proof.
  induction s as [| c s IH]; simpl; [reflexivity |].
  destruct (N.eqb c NEWLINE); simpl.
  - now rewrite str_split_no_more.
  - rewrite IH. now destruct (contains NEWLINE s).
Qed.

Lemma first_line_no_newline (s : pystr) :
  contains NEWLINE s = false ->
  first_line s = s /\ after_first_newline s = [].
Proof.
  induction s as [| c s IH]; simpl; [intros _; split; reflexivity |].
  destruct (N.eqb c NEWLINE); simpl; [discriminate |].
  intros H. destruct (IH H) as [-> ->]. split; reflexivity.
Qed.

(** The unpacking of line 132, with its [ValueError] caught, yields the
    first line and what follows the first newline. *)
Lemma first_remainder_spec (msg : pystr) :
  Long.first_remainder msg = (first_line msg, after_first_newline msg).
Proof.
  unfold Long.first_remainder. rewrite str_split_once.
  destruct (contains NEWLINE msg) eqn:E; [reflexivity |].
  destruct (first_line_no_newline msg E) as [-> ->]. reflexivity.
Qed.

Lemma fold_max_ge (xs : list Z) (a : Z) : a <= fold_left Z.max xs a.
Proof.
  revert a. induction xs as [| x xs IH]; intros a; simpl; [lia |].
  specialize (IH (Z.max a x)). lia.
Qed.

Lemma fold_max_max (xs : list Z) (a b : Z) :
  fold_left Z.max xs (Z.max a b) = Z.max a (fold_left Z.max xs b).
Proof.
  revert b. induction xs as [| x xs IH]; intros b; simpl; [reflexivity |].
  rewrite <- Z.max_assoc. apply IH.
Qed.

(** The scan agrees with the maximum over the split lines. *)
Lemma longest_from_split (s : pystr) (cur best : Z) :
  match str_split NEWLINE None s with
  | l :: ls =>
      longest_from cur best s =
        Z.max best (fold_left Z.max (List.map len ls) (cur + len l))
  | [] => False
  end.
Proof.
  revert cur best. induction s as [| c s IH]; intros cur best; simpl.
  - unfold len. simpl. now rewrite Z.add_0_r.
  - destruct (N.eqb c NEWLINE).
    + specialize (IH 0 (Z.max best cur)).
      destruct (str_split NEWLINE None s) as [| l ls]; [contradiction |].
      rewrite IH. simpl. change (len []) with 0. rewrite Z.add_0_r.
      rewrite fold_max_max, Z.max_assoc. reflexivity.
    + specialize (IH (cur + 1) best).
      destruct (str_split NEWLINE None s) as [| l ls]; [contradiction |].
      rewrite IH. do 2 f_equal. unfold len. simpl length. lia.
Qed.

(** Line 137 computes the length of the longest line. *)
Lemma max_line_length_spec (msg : pystr) :
  Long.max_line_length msg = Ok (longest_line msg).
Proof.
  unfold Long.max_line_length, longest_line.
  pose proof (longest_from_split msg 0 0) as H.
  destruct (str_split NEWLINE None msg) as [| l ls]; [contradiction |].
  simpl. rewrite H. f_equal.
  pose proof (fold_max_ge (List.map len ls) (len l)).
  pose proof (len_nonneg l). rewrite Z.add_0_l. lia.
Qed.

(** No line is longer than the longest: in particular the first. *)
Lemma longest_from_ge (s : pystr) (cur best : Z) :
  Z.max best (cur + len (first_line s)) <= longest_from cur best s.
Proof.
  revert cur best. induction s as [| c s IH]; intros cur best; simpl.
  - change (len []) with 0. lia.
  - destruct (N.eqb c NEWLINE).
    + specialize (IH 0 (Z.max best cur)). change (len []) with 0.
      pose proof (len_nonneg (first_line s)). lia.
    + specialize (IH (cur + 1) best).
      replace (len (c :: first_line s)) with (1 + len (first_line s))
        by (unfold len; simpl length; lia).
      lia.
Qed.

Lemma first_line_le_longest (msg : pystr) :
  len (first_line msg) <= longest_line msg.
Proof.
  pose proof (longest_from_ge msg 0 0). unfold longest_line. lia.
Qed.

Lemma longest_from_no_newline (s : pystr) (cur best : Z) :
  contains NEWLINE s = false ->
  longest_from cur best s = Z.max best (cur + len s).
Proof.
  revert cur best. induction s as [| c s IH]; intros cur best; simpl.
  - intros _. change (len []) with 0. now rewrite Z.add_0_r.
  - destruct (N.eqb c NEWLINE); simpl; [discriminate |].
    intros Hs. rewrite IH by assumption.
    replace (len (c :: s)) with (1 + len s) by (unfold len; simpl length; lia).
    f_equal. lia.
Qed.

Lemma longest_line_no_newline (s : pystr) :
  contains NEWLINE s = false -> longest_line s = len s.
Proof.
  intros Hs. unfold longest_line. rewrite longest_from_no_newline by assumption.
  pose proof (len_nonneg s). lia.
Qed.

Lemma longest_line_nonneg (s : pystr) : 0 <= longest_line s.
Proof.
  pose proof (first_line_le_longest s). pose proof (len_nonneg (first_line s)). lia.
Qed.

Lemma first_line_split (s : pystr) :
  contains NEWLINE s = true ->
  s = first_line s ++ NEWLINE :: after_first_newline s.
Proof.
  induction s as [| c s IH]; simpl; [discriminate |].
  destruct (N.eqb c NEWLINE) eqn:E; simpl.
  - intros _. apply N.eqb_eq in E. now subst c.
  - intros Hs. now rewrite <- IH.
Qed.

Lemma first_line_has_no_newline (s : pystr) :
  contains NEWLINE (first_line s) = false.
Proof.
  induction s as [| c s IH]; simpl; [reflexivity |].
  destruct (N.eqb c NEWLINE) eqn:E; simpl; [reflexivity |].
  now rewrite E.
Qed.

Lemma contains_app (c : char) (s t : pystr) :
  contains c (s ++ t) = contains c s || contains c t.
Proof. unfold contains. apply existsb_app. Qed.

(** Lines 77-81 in one condition. *)
Lemma should_format_as_code_block_spec (h : Long.DiscordHandler) (msg : pystr) :
  Long.should_format_as_code_block h msg =
    negb (negb (contains NEWLINE msg) && (len msg <=? Long.embed_line_wrap_threshold h)).
Proof.
  unfold Long.should_format_as_code_block.
  rewrite Z.gtb_ltb, Z.ltb_antisym.
  destruct (contains NEWLINE msg); simpl; [reflexivity |].
  now destruct (len msg <=? Long.embed_line_wrap_threshold h).
Qed.

(** ** The layout of the long format *)

(** A message that is laid out as a short embed has no line longer than
    the threshold. *)
Lemma short_message_longest (msg : pystr) (T : Z) :
  negb (contains NEWLINE msg) && (len msg <=? T) = true ->
  longest_line msg <= T.
Proof.
  intros H. apply andb_true_iff in H as [Hn Hl].
  apply negb_true_iff in Hn. apply Z.leb_le in Hl.
  now rewrite longest_line_no_newline.
Qed.

(** Lines 129-155 in the words of the specification; the two embeds go
    through [DiscordEmbed], which may refuse the colour. *)
Lemma Long_layout_spec (h : Long.DiscordHandler) (record : LogRecord) (msg : pystr)
    (colour : Z) :
  let T := Long.embed_line_wrap_threshold h in
  let looked_up := Long.emojis h !! Some (levelno record) in
  Long.layout h msg colour (Long.emoji_of h record) (Long.new_webhook h) =
    if negb (contains NEWLINE msg) && (len msg <=? T) then
      match Long.DiscordEmbed (emoji_prefix looked_up ++ msg) None colour with
      | Ok e => Ok (embed_message h e)
      | Raise e => Raise e
      end
    else if longest_line msg >? T then
      Ok (content_message h (FENCE ++ rendered_prefix looked_up ++ clip msg ++ FENCE))
    else
      match Long.DiscordEmbed (rendered_prefix looked_up ++ first_line msg)
              (Some (clip (after_first_newline msg))) colour with
      | Ok e => Ok (embed_message h e)
      | Raise e => Raise e
      end.
Proof.
  cbv zeta. unfold Long.layout.
  rewrite should_format_as_code_block_spec, first_remainder_spec, max_line_length_spec.
  cbv zeta. rewrite !clip_spec, Long_short_title, Long_fstr_emoji_of.
  destruct (negb (contains NEWLINE msg) && (len msg <=? Long.embed_line_wrap_threshold h));
    simpl.
  - now destruct (Long.DiscordEmbed _ _ _).
  - destruct (longest_line msg >? Long.embed_line_wrap_threshold h); [reflexivity |].
    now destruct (Long.DiscordEmbed _ _ _).
Qed.

(** The three layouts, for a colour that [DiscordEmbed] accepts. *)
Lemma Long_layout_in_range (h : Long.DiscordHandler) (record : LogRecord) (msg : pystr)
    (colour : Z) :
  colour_in_range colour ->
  let T := Long.embed_line_wrap_threshold h in
  let looked_up := Long.emojis h !! Some (levelno record) in
  Long.layout h msg colour (Long.emoji_of h record) (Long.new_webhook h) =
    Ok (if negb (contains NEWLINE msg) && (len msg <=? T) then
          embed_message h {| title := emoji_prefix looked_up ++ msg;
                             description := None;
                             color := colour |}
        else if longest_line msg >? T then
          content_message h (FENCE ++ rendered_prefix looked_up ++ clip msg ++ FENCE)
        else
          embed_message h {| title := rendered_prefix looked_up ++ first_line msg;
                             description := Some (clip (after_first_newline msg));
                             color := colour |}).
Proof.
  intros Hin. cbv zeta. rewrite (Long_layout_spec h record msg colour). cbv zeta.
  rewrite !DiscordEmbed_ok by assumption.
  destruct (negb (contains NEWLINE msg) && _); [reflexivity |].
  now destruct (longest_line msg >? _).
Qed.

(** The code block needs no embed, hence no colour. *)
Lemma Long_layout_code_block (h : Long.DiscordHandler) (record : LogRecord) (msg : pystr)
    (colour : Z) :
  longest_line msg > Long.embed_line_wrap_threshold h ->
  Long.layout h msg colour (Long.emoji_of h record) (Long.new_webhook h) =
    Ok (content_message h
          (FENCE ++ rendered_prefix (Long.emojis h !! Some (levelno record))
             ++ clip msg ++ FENCE)).
Proof.
  intros Hlong. rewrite (Long_layout_spec h record msg colour). cbv zeta.
  destruct (negb (contains NEWLINE msg) && _) eqn:Eshort.
  - apply short_message_longest in Eshort. lia.
  - apply Z.gt_lt, Z.gtb_lt in Hlong. now rewrite Hlong.
Qed.

(** Where an embed is due, a colour out of range stops the layout. *)
Lemma Long_layout_refused (h : Long.DiscordHandler) (record : LogRecord) (msg : pystr)
    (colour : Z) :
  longest_line msg <= Long.embed_line_wrap_threshold h ->
  ~ colour_in_range colour ->
  Long.layout h msg colour (Long.emoji_of h record) (Long.new_webhook h) =
    Raise (Long.ColorNotInRangeException colour).
Proof.
  intros Hshort Hout. rewrite (Long_layout_spec h record msg colour). cbv zeta.
  rewrite !DiscordEmbed_refuses by assumption.
  destruct (negb (contains NEWLINE msg) && _); [reflexivity |].
  destruct (longest_line msg >? _) eqn:E; [| reflexivity].
  apply Z.gtb_lt in E. lia.
Qed.

(** A layout that succeeded is one of the three, and where it is an
    embed the colour was in range. *)
Lemma Long_layout_inv (h : Long.DiscordHandler) (record : LogRecord) (msg : pystr)
    (colour : Z) (m : message) :
  Long.layout h msg colour (Long.emoji_of h record) (Long.new_webhook h) = Ok m ->
  let T := Long.embed_line_wrap_threshold h in
  let looked_up := Long.emojis h !! Some (levelno record) in
  m = (if negb (contains NEWLINE msg) && (len msg <=? T) then
         embed_message h {| title := emoji_prefix looked_up ++ msg;
                            description := None;
                            color := colour |}
       else if longest_line msg >? T then
         content_message h (FENCE ++ rendered_prefix looked_up ++ clip msg ++ FENCE)
       else
         embed_message h {| title := rendered_prefix looked_up ++ first_line msg;
                            description := Some (clip (after_first_newline msg));
                            color := colour |}).
Proof.
  intros Hlay. cbv zeta.
  destruct (Z_le_dec 0 colour) as [Hlo | Hlo];
    [destruct (Z_le_dec colour 16777215) as [Hhi | Hhi] |].
  - rewrite (Long_layout_in_range h record msg colour) in Hlay by (split; assumption).
    cbv zeta in Hlay. congruence.
  - destruct (Z_le_gt_dec (longest_line msg) (Long.embed_line_wrap_threshold h))
      as [Hs | Hl].
    + rewrite Long_layout_refused in Hlay;
        [discriminate | assumption | unfold colour_in_range; lia].
    + rewrite Long_layout_code_block in Hlay by assumption.
      destruct (negb (contains NEWLINE msg) && _) eqn:Eshort;
        [apply short_message_longest in Eshort; lia |].
      apply Z.gt_lt, Z.gtb_lt in Hl. rewrite Hl. congruence.
  - destruct (Z_le_gt_dec (longest_line msg) (Long.embed_line_wrap_threshold h))
      as [Hs | Hl].
    + rewrite Long_layout_refused in Hlay;
        [discriminate | assumption | unfold colour_in_range; lia].
    + rewrite Long_layout_code_block in Hlay by assumption.
      destruct (negb (contains NEWLINE msg) && _) eqn:Eshort;
        [apply short_message_longest in Eshort; lia |].
      apply Z.gt_lt, Z.gtb_lt in Hl. rewrite Hl. congruence.
Qed.

(** What a call with the barrier clear sends when every step before the
    send succeeds. *)
Lemma Long_emit_sent (w : world) (record : LogRecord) (h : Long.DiscordHandler)
    (msg : pystr) (colour : Z) (m : message) :
  Long.reentry_barrier h = false ->
  w_format w record = Ok msg ->
  Long.colour_of h record = Ok colour ->
  Long.layout h msg colour (Long.emoji_of h record) (Long.new_webhook h) = Ok m ->
  sent (trace_of (Long.emit w record h)) = [m].
Proof.
  intros Hb Hf Hcol Hlay.
  rewrite Long_emit_clear by assumption. cbv zeta.
  rewrite Hf, Hcol, Hlay.
  destruct (snd (w_send w m)) as [[] | e]; reflexivity.
Qed.

(** Every message sent by src/discord_logging/handler.py comes from a
    call with the barrier clear in which the record was formatted and the
    colour found; it is laid out in one of the three ways. *)
Lemma Long_sent_inv (w : world) (record : LogRecord) (h : Long.DiscordHandler)
    (m : message) :
  In m (sent (trace_of (Long.emit w record h))) ->
  Long.reentry_barrier h = false /\
  exists msg colour,
    w_format w record = Ok msg /\
    Long.colour_of h record = Ok colour /\
    let T := Long.embed_line_wrap_threshold h in
    let looked_up := Long.emojis h !! Some (levelno record) in
    m = (if negb (contains NEWLINE msg) && (len msg <=? T) then
           embed_message h {| title := emoji_prefix looked_up ++ msg;
                              description := None;
                              color := colour |}
         else if longest_line msg >? T then
           content_message h (FENCE ++ rendered_prefix looked_up ++ clip msg ++ FENCE)
         else
           embed_message h {| title := rendered_prefix looked_up ++ first_line msg;
                              description := Some (clip (after_first_newline msg));
                              color := colour |}).
Proof.
  intros Hin.
  destruct (Long.reentry_barrier h) eqn:Hb.
  { rewrite Long_emit_barrier_set in Hin by assumption. destruct Hin. }
  split; [reflexivity |].
  rewrite Long_emit_clear in Hin by assumption. cbv zeta in Hin.
  destruct (w_format w record) as [msg | e2]; [| destruct Hin].
  destruct (Long.colour_of h record) as [colour | e3]; [| destruct Hin].
  exists msg, colour. split; [reflexivity |]. split; [reflexivity |].
  destruct (Long.layout h msg colour (Long.emoji_of h record) (Long.new_webhook h))
    as [m' | e] eqn:Hlay; [| destruct Hin].
  apply (Long_layout_inv h record msg colour) in Hlay. cbv zeta in Hlay |- *.
  rewrite <- Hlay.
  destruct (snd (w_send w m')) as [[] | e4]; simpl in Hin;
    destruct Hin as [<- | []]; reflexivity.
Qed.

Lemma Minimal_sent_inv (w : world) (record : LogRecord) (h : Minimal.DiscordHandler)
    (m : message) :
  In m (sent (trace_of (Minimal.emit w record h))) ->
  Minimal.reentry_barrier h = false /\
  w_construct w (Minimal.webhook_url h) = Ok tt /\
  exists msg colour,
    w_format w record = Ok msg /\
    Minimal.colour_of h record = Ok colour /\
    m = Minimal.outbound h colour
          (emoji_prefix (Minimal.emojis h !! Some (levelno record)) ++ msg).
Proof.
  intros Hin.
  destruct (Minimal.reentry_barrier h) eqn:Hb.
  { rewrite Minimal_emit_barrier_set in Hin by assumption. destruct Hin. }
  split; [reflexivity |].
  rewrite Minimal_emit_clear in Hin by assumption. cbv zeta in Hin.
  destruct (w_format w record) as [msg | e1];
    [| destruct (is_http e1); destruct Hin].
  destruct (Minimal.colour_of h record) as [colour | e2];
    [| destruct (is_http e2); destruct Hin].
  destruct (w_construct w (Minimal.webhook_url h)) as [[] | e3];
    [| destruct (is_http e3); destruct Hin].
  split; [reflexivity |].
  exists msg, colour. split; [reflexivity |]. split; [reflexivity |].
  rewrite Minimal_decorate_prefix in Hin.
  destruct (snd (w_send w _)) as [[] | e4]; [| destruct (is_http e4)]; simpl in Hin;
    destruct Hin as [<- | []]; reflexivity.
Qed.




(** ** What one call of emit does to the outside world *)



Lemma colour_in_range_dec (colour : Z) :
  {colour_in_range colour} + {~ colour_in_range colour}.
Proof.
  unfold colour_in_range.
  destruct (Z_le_dec 0 colour); [destruct (Z_le_dec colour 16777215) |];
    [left | right | right]; lia.
Qed.


Lemma Long_emit_counts (w : world) (record : LogRecord) (h : Long.DiscordHandler) :
  let t := trace_of (Long.emit w record h) in
  (count_sends t <= 1)%nat /\
  (count_stderr t <= 1)%nat /\
  (count_sends t = 0%nat <->
     Long.reentry_barrier h = true \/
     (exists e, w_format w record = Raise e) \/
     (exists e, Long.colour_of h record = Raise e) \/
     (exists msg colour,
        w_format w record = Ok msg /\
        Long.colour_of h record = Ok colour /\
        longest_line msg <= Long.embed_line_wrap_threshold h /\
        ~ colour_in_range colour)).
Proof.
  destruct (Long.reentry_barrier h) eqn:Hb.
  - rewrite Long_emit_barrier_set by assumption. nothing_sent ltac:(now left).
  - rewrite Long_emit_clear by assumption. cbv zeta.
    destruct (w_format w record) as [msg | e2];
      [| nothing_sent ltac:(right; left; eauto)].
    destruct (Long.colour_of h record) as [colour | e3];
      [| nothing_sent ltac:(right; right; left; eauto)].
    destruct (Z_le_gt_dec (longest_line msg) (Long.embed_line_wrap_threshold h))
      as [Hembed | Hblock].
    + destruct (colour_in_range_dec colour) as [Hin | Hout].
      * rewrite (Long_layout_in_range h record msg colour Hin). cbv zeta.
        assert (Hno : ~ (false = true \/
                         (exists e, Ok msg = Raise e :> result pystr) \/
                         (exists e, Ok colour = Raise e :> result Z) \/
                         (exists msg' colour',
                            Ok msg = Ok msg' /\ Ok colour = Ok colour' /\
                            longest_line msg' <= Long.embed_line_wrap_threshold h /\
                            ~ colour_in_range colour'))).
        { intros [H | [[e H] | [[e H] | (msg' & colour' & Hm & Hc & _ & Hout)]]];
            try discriminate H.
          injection Hc as <-. contradiction. }
        destruct (snd (w_send w _)) as [[] | e4]; one_sent Hno.
      * rewrite Long_layout_refused by assumption.
        nothing_sent ltac:(right; right; right; exists msg, colour;
                           split; [reflexivity | split; [reflexivity | split; assumption]]).
    + rewrite Long_layout_code_block by assumption.
      assert (Hno : ~ (false = true \/
                       (exists e, Ok msg = Raise e :> result pystr) \/
                       (exists e, Ok colour = Raise e :> result Z) \/
                       (exists msg' colour',
                          Ok msg = Ok msg' /\ Ok colour = Ok colour' /\
                          longest_line msg' <= Long.embed_line_wrap_threshold h /\
                          ~ colour_in_range colour'))).
      { intros [H | [[e H] | [[e H] | (msg' & colour' & Hm & _ & Hle & _)]]];
          try discriminate H.
        injection Hm as <-. lia. }
      destruct (snd (w_send w _)) as [[] | e4]; one_sent Hno.
Qed.

Lemma Minimal_emit_counts (w : world) (record : LogRecord) (h : Minimal.DiscordHandler) :
  let t := trace_of (Minimal.emit w record h) in
  (count_sends t <= 1)%nat /\
  (count_stderr t <= 1)%nat /\
  (count_sends t = 0%nat <->
     Minimal.reentry_barrier h = true \/
     (exists e, w_format w record = Raise e) \/
     (exists e, Minimal.colour_of h record = Raise e) \/
     (exists e, w_construct w (Minimal.webhook_url h) = Raise e)).
Proof.
  destruct (Minimal.reentry_barrier h) eqn:Hb.
  - rewrite Minimal_emit_barrier_set by assumption. nothing_sent ltac:(now left).
  - rewrite Minimal_emit_clear by assumption. cbv zeta.
    destruct (w_format w record) as [msg | e1];
      [| destruct (is_http e1); nothing_sent ltac:(right; left; eauto)].
    destruct (Minimal.colour_of h record) as [colour | e2];
      [| destruct (is_http e2); nothing_sent ltac:(right; right; left; eauto)].
    destruct (w_construct w (Minimal.webhook_url h)) as [[] | e3];
      [| destruct (is_http e3); nothing_sent ltac:(right; right; right; eauto)].
    assert (Hno : ~ (false = true \/
                     (exists e, Ok msg = Raise e :> result pystr) \/
                     (exists e, Ok colour = Raise e :> result Z) \/
                     (exists e, Ok tt = Raise e :> result unit))).
    { intros [H | [[e H] | [[e H] | [e H]]]]; discriminate H. }
    destruct (snd (w_send w _)) as [[] | e4]; [| destruct (is_http e4)]; one_sent Hno.
Qed.



(** ** Lengths of the outbound text fields *)







(** * Further properties of the two handlers *)

(** ** What a sent message looks like *)

(** X1: every message sent by src/discord_logging/handler.py carries the
    webhook URL, the service name as sender, the avatar and the retry flag
    of the handler, and is either one embed without content or a content
    without embed; the content is a fenced block. *)
Theorem X1_long_message_shape (w : world) (record : LogRecord) (h : Long.DiscordHandler)
    (m : message) :
  In m (sent (trace_of (Long.emit w record h))) ->
  url m = Long.webhook_url h /\
  username m = Long.service_name h /\
  avatar m = Long.avatar_url h /\
  rate_limit_retry_opt m = Some (Long.rate_limit_retry h) /\
  ((content m = None /\ exists e, embeds m = [e]) \/
   (embeds m = [] /\ exists body, content m = Some (FENCE ++ body ++ FENCE))).
Proof.
  intros Hin.
  destruct (Long_sent_inv w record h m Hin) as (_ & msg & colour & _ & _ & Hm).
  cbv zeta in Hm. subst m.
  destruct (negb (contains NEWLINE msg) && _).
  - repeat split. left. split; [reflexivity | eauto].
  - destruct (longest_line msg >? _).
    + repeat split. right. split; [reflexivity |].
      exists (rendered_prefix (Long.emojis h !! Some (levelno record)) ++ clip msg).
      cbn [content content_message]. now rewrite <- app_assoc.
    + repeat split. left. split; [reflexivity | eauto].
Qed.

Lemma X1_long_message_shape_witness :
  let m := content_message long_handler (FENCE ++ one_line 61 ++ FENCE) in
  username m = lit "svc" /\ rate_limit_retry_opt m = Some true.
Proof.
  cbv zeta.
  destruct (X1_long_message_shape (quiet_world (one_line 61)) (record_at INFO) long_handler
              (content_message long_handler (FENCE ++ one_line 61 ++ FENCE)))
    as (_ & Hu & _ & Hr & _).
  - left. vm_compute. reflexivity.
  - split; assumption.
Defined.

(** X2: every message sent by src/handler.py carries the webhook URL,
    the service name and the avatar of the handler, has no content, and has
    exactly one embed, without description. *)
Theorem X2_minimal_message_shape (w : world) (record : LogRecord)
    (h : Minimal.DiscordHandler) (m : message) :
  In m (sent (trace_of (Minimal.emit w record h))) ->
  url m = Minimal.webhook_url h /\
  username m = Minimal.service_name h /\
  avatar m = Minimal.avatar_url h /\
  content m = None /\
  exists e, embeds m = [e] /\ description e = None.
Proof.
  intros Hin.
  destruct (Minimal_sent_inv w record h m Hin) as (_ & _ & msg & colour & _ & _ & ->).
  repeat split. eexists. split; reflexivity.
Qed.

Lemma X2_minimal_message_shape_witness :
  let m := Minimal.outbound minimal_handler 14362664 (EMOJI_CROSS ++ SPACE ++ lit "hello") in
  username m = lit "svc" /\ content m = None.
Proof.
  cbv zeta.
  destruct (X2_minimal_message_shape (quiet_world (lit "hello")) (record_at ERROR)
              minimal_handler
              (Minimal.outbound minimal_handler 14362664
                 (EMOJI_CROSS ++ SPACE ++ lit "hello")))
    as (_ & Hu & _ & Hc & _).
  - left. vm_compute. reflexivity.
  - split; assumption.
Defined.

(** ** More on the layout of the long format *)

(** X3: src/discord_logging/handler.py sends an embed with a description
    only for a message that contains a newline: the description is then the
    clipped text after the first newline and the title ends with the text
    before it.  A single long line, for which the unpacking of line 132
    fails and [remainder] is empty, always goes out as a code block. *)
Theorem X3_description_needs_newline (w : world) (record : LogRecord)
    (h : Long.DiscordHandler) (m : message) (e : embed) (d : pystr) :
  In m (sent (trace_of (Long.emit w record h))) ->
  In e (embeds m) ->
  description e = Some d ->
  exists msg,
    w_format w record = Ok msg /\
    contains NEWLINE msg = true /\
    msg = first_line msg ++ NEWLINE :: after_first_newline msg /\
    d = clip (after_first_newline msg) /\
    title e = rendered_prefix (Long.emojis h !! Some (levelno record)) ++ first_line msg.
Proof.
  intros Hin He Hd.
  destruct (Long_sent_inv w record h m Hin) as (_ & msg & colour & Hf & _ & Hm).
  cbv zeta in Hm. exists msg. split; [assumption |].
  destruct (contains NEWLINE msg) eqn:En.
  - simpl in Hm. split; [reflexivity |]. split; [now apply first_line_split |].
    destruct (longest_line msg >? _); subst m.
    + destruct He.
    + destruct He as [<- | []]. cbn [description title] in *.
      split; [congruence | reflexivity].
  - exfalso. simpl in Hm.
    destruct (len msg <=? Long.embed_line_wrap_threshold h) eqn:El.
    + subst m. destruct He as [<- | []]. discriminate Hd.
    + apply Z.leb_gt in El.
      rewrite (longest_line_no_newline msg En) in Hm.
      destruct (len msg >? Long.embed_line_wrap_threshold h) eqn:Eg.
      * subst m. destruct He.
      * rewrite Z.gtb_ltb in Eg. apply Z.ltb_ge in Eg. lia.
Qed.

Lemma X3_description_needs_newline_witness :
  exists msg,
    w_format (quiet_world (lit "short" ++ [NEWLINE] ++ lit "short2")) (record_at ERROR) = Ok msg /\
    contains NEWLINE msg = true.
Proof.
  destruct (X3_description_needs_newline
              (quiet_world (lit "short" ++ [NEWLINE] ++ lit "short2")) (record_at ERROR)
              long_handler
              (embed_message long_handler
                 {| title := EMOJI_CROSS ++ SPACE ++ lit "short";
                    description := Some (lit "short2");
                    color := 14362664 |})
              {| title := EMOJI_CROSS ++ SPACE ++ lit "short";
                 description := Some (lit "short2");
                 color := 14362664 |}
              (lit "short2"))
    as (msg & Hf & Hn & _).
  - left. vm_compute. reflexivity.
  - left. reflexivity.
  - reflexivity.
  - exists msg. split; assumption.
Defined.

(** X4: with a negative wrap threshold every message, the empty one
    included, is longer than the threshold: whatever
    src/discord_logging/handler.py sends is a fenced code block and never an
    embed. *)
Theorem X4_negative_threshold_always_code_block (w : world) (record : LogRecord)
    (h : Long.DiscordHandler) (m : message) :
  Long.embed_line_wrap_threshold h < 0 ->
  In m (sent (trace_of (Long.emit w record h))) ->
  exists msg,
    w_format w record = Ok msg /\
    m = content_message h
          (FENCE ++ rendered_prefix (Long.emojis h !! Some (levelno record))
             ++ clip msg ++ FENCE).
Proof.
  intros HT Hin.
  destruct (Long_sent_inv w record h m Hin) as (_ & msg & colour & Hf & _ & Hm).
  cbv zeta in Hm. exists msg. split; [assumption |].
  pose proof (len_nonneg msg) as Hl. pose proof (longest_line_nonneg msg) as Hlong.
  destruct (len msg <=? Long.embed_line_wrap_threshold h) eqn:El;
    [apply Z.leb_le in El; lia |].
  rewrite andb_false_r in Hm.
  destruct (longest_line msg >? Long.embed_line_wrap_threshold h) eqn:Eg;
    [assumption |].
  rewrite Z.gtb_ltb in Eg. apply Z.ltb_ge in Eg. lia.
Qed.

Lemma X4_negative_threshold_always_code_block_witness :
  exists msg,
    w_format (quiet_world []) (record_at INFO) = Ok msg /\
    content_message (long_handler_with_threshold (-1)) (FENCE ++ FENCE) =
      content_message (long_handler_with_threshold (-1))
        (FENCE ++ rendered_prefix
                    (Long.emojis (long_handler_with_threshold (-1))
                       !! Some (levelno (record_at INFO)))
           ++ clip msg ++ FENCE).
Proof.
  apply (X4_negative_threshold_always_code_block (quiet_world []) (record_at INFO)
           (long_handler_with_threshold (-1))
           (content_message (long_handler_with_threshold (-1)) (FENCE ++ FENCE))).
  - reflexivity.
  - left. vm_compute. reflexivity.
Defined.

(** X5: src/discord_logging/handler.py never puts a newline into an embed
    title, provided the emoji configured for the level has none: the title
    is a one-line message or the first line of a longer one. *)
Theorem X5_long_title_is_one_line (w : world) (record : LogRecord)
    (h : Long.DiscordHandler) (m : message) (e : embed) :
  (forall emoji, Long.emojis h !! Some (levelno record) = Some emoji ->
                 contains NEWLINE emoji = false) ->
  In m (sent (trace_of (Long.emit w record h))) ->
  In e (embeds m) ->
  contains NEWLINE (title e) = false.
Proof.
  intros Hemoji Hin He.
  destruct (Long_sent_inv w record h m Hin) as (_ & msg & colour & _ & _ & Hm).
  cbv zeta in Hm.
  assert (Hpre : contains NEWLINE (emoji_prefix (Long.emojis h !! Some (levelno record)))
                 = false).
  { destruct (Long.emojis h !! Some (levelno record)) as [[| c emoji] |] eqn:E;
      try reflexivity.
    unfold emoji_prefix. rewrite contains_app, (Hemoji _ eq_refl). reflexivity. }
  assert (Hren : contains NEWLINE (rendered_prefix (Long.emojis h !! Some (levelno record)))
                 = false).
  { destruct (Long.emojis h !! Some (levelno record)) as [emoji |] eqn:E;
      [exact Hpre | reflexivity]. }
  destruct (contains NEWLINE msg) eqn:En; simpl in Hm.
  - destruct (longest_line msg >? _); subst m; [destruct He |].
    destruct He as [<- | []]. cbn [title].
    now rewrite contains_app, Hren, first_line_has_no_newline.
  - destruct (len msg <=? _).
    + subst m. destruct He as [<- | []]. cbn [title].
      now rewrite contains_app, Hpre, En.
    + destruct (longest_line msg >? _); subst m; [destruct He |].
      destruct He as [<- | []]. cbn [title].
      now rewrite contains_app, Hren, first_line_has_no_newline.
Qed.

Lemma X5_long_title_is_one_line_witness :
  contains NEWLINE (EMOJI_CROSS ++ SPACE ++ lit "short") = false.
Proof.
  apply (X5_long_title_is_one_line
           (quiet_world (lit "short" ++ [NEWLINE] ++ lit "short2")) (record_at ERROR)
           long_handler
           (embed_message long_handler
              {| title := EMOJI_CROSS ++ SPACE ++ lit "short";
                 description := Some (lit "short2");
                 color := 14362664 |})
           {| title := EMOJI_CROSS ++ SPACE ++ lit "short";
              description := Some (lit "short2");
              color := 14362664 |}).
  - intros emoji Hlook. vm_compute in Hlook. injection Hlook as <-. reflexivity.
  - left. vm_compute. reflexivity.
  - left. reflexivity.
Defined.

(** ** Where failures are reported *)

(** X6: a call of [emit] of src/handler.py with the barrier clear returns
    normally and leaves exactly this trace.  When formatting, the colour
    lookup or the construction of the client raises [e], nothing is sent and
    [e] is reported once: by the line "Error from Discord logger" and the
    text of [e] on standard error when [e] is an [HTTPException], by
    [handleError(record)] otherwise.  When the send raises [e], the same
    report follows the send.  When nothing raises, the send is all that
    happens. *)
Theorem X6_minimal_failure_report (w : world) (record : LogRecord)
    (h : Minimal.DiscordHandler) :
  Minimal.reentry_barrier h = false ->
  let t := trace_of (Minimal.emit w record h) in
  let report e :=
    if is_http e then [EvStderr (diagnostic e)] else [EvHandleError record] in
  outcome (Minimal.emit w record h) = Ok tt /\
  (forall e, w_format w record = Raise e -> t = report e) /\
  (forall msg e,
     w_format w record = Ok msg ->
     Minimal.colour_of h record = Raise e ->
     t = report e) /\
  (forall msg colour e,
     w_format w record = Ok msg ->
     Minimal.colour_of h record = Ok colour ->
     w_construct w (Minimal.webhook_url h) = Raise e ->
     t = report e) /\
  (forall msg colour,
     w_format w record = Ok msg ->
     Minimal.colour_of h record = Ok colour ->
     w_construct w (Minimal.webhook_url h) = Ok tt ->
     let m := Minimal.outbound h colour
                (emoji_prefix (Minimal.emojis h !! Some (levelno record)) ++ msg) in
     match snd (w_send w m) with
     | Ok _ => t = [EvSend m]
     | Raise e => t = EvSend m :: report e
     end).
Proof.
  intros Hb. cbv zeta. split; [apply Minimal_emit_returns |].
  rewrite Minimal_emit_clear by assumption. cbv zeta.
  split; [| split; [| split]].
  - intros e ->. now destruct (is_http e).
  - intros msg e -> ->. now destruct (is_http e).
  - intros msg colour e -> -> ->. now destruct (is_http e).
  - intros msg colour -> -> ->. rewrite Minimal_decorate_prefix.
    destruct (snd (w_send w _)) as [[] | e]; [reflexivity |].
    now destruct (is_http e).
Qed.

Lemma X6_minimal_failure_report_witness :
  let m := Minimal.outbound minimal_handler 14362664
             (EMOJI_CROSS ++ SPACE ++ lit "hello") in
  trace_of (Minimal.emit (failing_world (lit "hello") too_many_requests) (record_at ERROR)
              minimal_handler)
    = [EvSend m; EvStderr (diagnostic too_many_requests)] /\
  trace_of (Minimal.emit (failing_world (lit "hello") boom) (record_at ERROR)
              minimal_handler)
    = [EvSend m; EvHandleError (record_at ERROR)] /\
  trace_of (Minimal.emit (construct_fails_world (lit "hello") boom) (record_at ERROR)
              minimal_handler)
    = [EvHandleError (record_at ERROR)].
Proof.
  cbv zeta.
  destruct (X6_minimal_failure_report (failing_world (lit "hello") too_many_requests)
              (record_at ERROR) minimal_handler eq_refl) as (_ & _ & _ & _ & Hhttp).
  destruct (X6_minimal_failure_report (failing_world (lit "hello") boom)
              (record_at ERROR) minimal_handler eq_refl) as (_ & _ & _ & _ & Hother).
  destruct (X6_minimal_failure_report (construct_fails_world (lit "hello") boom)
              (record_at ERROR) minimal_handler eq_refl) as (_ & _ & _ & Hctor & _).
  split; [| split].
  - exact (Hhttp (lit "hello") 14362664 eq_refl eq_refl eq_refl).
  - exact (Hother (lit "hello") 14362664 eq_refl eq_refl eq_refl).
  - exact (Hctor (lit "hello") 14362664 boom eq_refl eq_refl eq_refl).
Defined.

(** X7: a call of [emit] of src/discord_logging/handler.py with the
    barrier clear returns normally and leaves exactly this trace.  When
    formatting or the colour lookup raises [e], or an embed is due and its
    colour is refused, nothing is sent and the failure is reported twice:
    by the line "Error from Discord logger" and the text of [e] on standard
    error and then by [handleError(record)].  When the send raises [e], the
    same two reports follow the send.  When nothing raises, the send is all
    that happens. *)
Theorem X7_long_failure_report (w : world) (record : LogRecord)
    (h : Long.DiscordHandler) :
  Long.reentry_barrier h = false ->
  let t := trace_of (Long.emit w record h) in
  let report e := [EvStderr (diagnostic e); EvHandleError record] in
  outcome (Long.emit w record h) = Ok tt /\
  (forall e, w_format w record = Raise e -> t = report e) /\
  (forall msg e,
     w_format w record = Ok msg ->
     Long.colour_of h record = Raise e ->
     t = report e) /\
  (forall msg colour,
     w_format w record = Ok msg ->
     Long.colour_of h record = Ok colour ->
     longest_line msg <= Long.embed_line_wrap_threshold h ->
     ~ colour_in_range colour ->
     exists e, t = report e) /\
  (forall msg colour m,
     w_format w record = Ok msg ->
     Long.colour_of h record = Ok colour ->
     Long.layout h msg colour (Long.emoji_of h record) (Long.new_webhook h) = Ok m ->
     match snd (w_send w m) with
     | Ok _ => t = [EvSend m]
     | Raise e => t = EvSend m :: report e
     end).
Proof.
  intros Hb. cbv zeta. split; [apply Long_emit_returns |].
  rewrite Long_emit_clear by assumption. cbv zeta.
  split; [| split; [| split]].
  - intros e ->. reflexivity.
  - intros msg e -> ->. reflexivity.
  - intros msg colour -> -> Hle Hout.
    rewrite Long_layout_refused by assumption. eauto.
  - intros msg colour m -> -> ->.
    destruct (snd (w_send w m)) as [[] | e]; reflexivity.
Qed.

Lemma X7_long_failure_report_witness :
  trace_of (Long.emit (format_fails_world boom) (record_at INFO) long_handler)
    = [EvStderr (diagnostic boom); EvHandleError (record_at INFO)] /\
  trace_of (Long.emit (failing_world (lit "hello") too_many_requests) (record_at INFO)
              long_handler)
    = [EvSend (embed_message long_handler
                 {| title := lit "hello"; description := None; color := 2196944 |});
       EvStderr (diagnostic too_many_requests);
       EvHandleError (record_at INFO)].
Proof.
  destruct (X7_long_failure_report (format_fails_world boom) (record_at INFO)
              long_handler eq_refl) as (_ & Hformat & _).
  destruct (X7_long_failure_report (failing_world (lit "hello") too_many_requests)
              (record_at INFO) long_handler eq_refl) as (_ & _ & _ & _ & Hsend).
  split.
  - exact (Hformat boom eq_refl).
  - exact (Hsend (lit "hello") 2196944
             (embed_message long_handler
                {| title := lit "hello"; description := None; color := 2196944 |})
             eq_refl eq_refl eq_refl).
Defined.

(** ** Mappings without the fallback key *)

(** X8: when the colours given to src/handler.py have no entry under
    [None], no record is ever sent, not even one whose level has a colour:
    the default argument [self.colours[None]] raises [KeyError] first, and
    every record that can be formatted ends in [handleError]. *)
Theorem X8_minimal_needs_fallback_colour (w : world) (record : LogRecord)
    (h : Minimal.DiscordHandler) (msg : pystr) :
  Minimal.colours h !! (None : option Z) = None ->
  Minimal.reentry_barrier h = false ->
  w_format w record = Ok msg ->
  Minimal.emit w record h = (h, [EvHandleError record], Ok tt).
Proof.
  intros Hnone Hb Hf. rewrite Minimal_emit_clear by assumption. cbv zeta.
  rewrite Hf. unfold Minimal.colour_of, getitem_None. rewrite Hnone. reflexivity.
Qed.

Lemma X8_minimal_needs_fallback_colour_witness :
  let h := Minimal.__init__ (lit "svc") example_url colours_without_fallback
             Minimal.DEFAULT_EMOJIS None in
  colours_without_fallback !! Some INFO = Some 2196944 /\
  Minimal.emit (quiet_world (lit "hello")) (record_at INFO) h =
    (h, [EvHandleError (record_at INFO)], Ok tt).
Proof.
  cbv zeta. split; [reflexivity |].
  apply (X8_minimal_needs_fallback_colour (quiet_world (lit "hello")) (record_at INFO)
           (Minimal.__init__ (lit "svc") example_url colours_without_fallback
              Minimal.DEFAULT_EMOJIS None) (lit "hello")); reflexivity.
Defined.

(** X9: when the colours given to src/discord_logging/handler.py have no
    entry under [None], a record whose level has a colour other than 0 is
    still sent, exactly once and with that colour on its embed, if that
    colour is within 0 .. 0xFFFFFF; every record whose level has no colour,
    or colour 0, and that can be formatted is reported as a [KeyError] on
    standard error and to [handleError], and not sent. *)
Theorem X9_long_without_fallback_colour (w : world) (record : LogRecord)
    (h : Long.DiscordHandler) (msg : pystr) :
  Long.colours h !! (None : option Z) = None ->
  Long.reentry_barrier h = false ->
  w_format w record = Ok msg ->
  let t := trace_of (Long.emit w record h) in
  match Long.colours h !! Some (levelno record) with
  | Some c =>
      if c =? 0 then
        t = [EvStderr (diagnostic (Exn KeyError NONE_REPR)); EvHandleError record]
      else
        colour_in_range c ->
        count_sends t = 1%nat /\
        forall m e, In m (sent t) -> In e (embeds m) -> color e = c
  | None =>
      t = [EvStderr (diagnostic (Exn KeyError NONE_REPR)); EvHandleError record]
  end.
Proof.
  intros Hnone Hb Hf. cbv zeta.
  destruct (Long.colours h !! Some (levelno record)) as [c |] eqn:Elook.
  - destruct (c =? 0) eqn:Ez.
    + rewrite Long_emit_clear by assumption. cbv zeta. rewrite Hf.
      unfold Long.colour_of, getitem_None. now rewrite Elook, Ez, Hnone.
    + intros Hin.
      assert (Hcol : Long.colour_of h record = Ok c).
      { unfold Long.colour_of. now rewrite Elook, Ez. }
      split.
      * rewrite Long_emit_clear by assumption. cbv zeta.
        rewrite Hf, Hcol, (Long_layout_in_range h record msg c Hin).
        destruct (snd (w_send w _)) as [[] | e4]; reflexivity.
      * intros m e Hm He.
        destruct (Long_sent_inv w record h m Hm) as (_ & msg' & c' & Hf' & Hcol' & Hshape).
        assert (c' = c) by congruence. subst c'. cbv zeta in Hshape. subst m.
        destruct (negb (contains NEWLINE msg') && _).
        -- destruct He as [<- | []]. reflexivity.
        -- destruct (longest_line msg' >? _).
           ++ destruct He.
           ++ destruct He as [<- | []]. reflexivity.
  - rewrite Long_emit_clear by assumption. cbv zeta. rewrite Hf.
    unfold Long.colour_of, getitem_None. now rewrite Elook, Hnone.
Qed.

Lemma X9_long_without_fallback_colour_witness :
  let h := Long.__init__ (lit "svc") example_url colours_without_fallback
             Long.DEFAULT_EMOJIS None true 60 in
  count_sends (trace_of (Long.emit (quiet_world (lit "hello")) (record_at INFO) h)) = 1%nat /\
  trace_of (Long.emit (quiet_world (lit "hello")) (record_at NOTICE) h) =
    [EvStderr (diagnostic (Exn KeyError NONE_REPR)); EvHandleError (record_at NOTICE)].
Proof.
  cbv zeta. split.
  - assert (Hin : colour_in_range 2196944) by (unfold colour_in_range; lia).
    exact (proj1 (X9_long_without_fallback_colour (quiet_world (lit "hello"))
                    (record_at INFO)
                    (Long.__init__ (lit "svc") example_url colours_without_fallback
                       Long.DEFAULT_EMOJIS None true 60) (lit "hello")
                    eq_refl eq_refl eq_refl Hin)).
  - exact (X9_long_without_fallback_colour (quiet_world (lit "hello")) (record_at NOTICE)
             (Long.__init__ (lit "svc") example_url colours_without_fallback
                Long.DEFAULT_EMOJIS None true 60) (lit "hello")
             eq_refl eq_refl eq_refl).
Defined.

(** ** The default mappings *)

Lemma default_colours_lookup (level : Z) :
  Long.DEFAULT_COLOURS !! Some level =
    if level =? CRITICAL then Some 14362664
    else if level =? ERROR then Some 14362664
    else if level =? WARNING then Some 16497928
    else if level =? INFO then Some 2196944
    else if level =? DEBUG then Some 8947848
    else None.
Proof.
  unfold CRITICAL, ERROR, WARNING, INFO, DEBUG.
  destruct (Z.eqb_spec level 50) as [-> | H50]; [reflexivity |].
  destruct (Z.eqb_spec level 40) as [-> | H40]; [reflexivity |].
  destruct (Z.eqb_spec level 30) as [-> | H30]; [reflexivity |].
  destruct (Z.eqb_spec level 20) as [-> | H20]; [reflexivity |].
  destruct (Z.eqb_spec level 10) as [-> | H10]; [reflexivity |].
  unfold Long.DEFAULT_COLOURS, CRITICAL, ERROR, WARNING, INFO, DEBUG.
  cbn [list_to_map foldr fst snd].
  rewrite !lookup_insert_ne by congruence. apply lookup_empty.
Qed.

Lemma default_colour_in_range (level : Z) : colour_in_range (default_colour level).
Proof.
  unfold default_colour, colour_in_range.
  repeat match goal with
         | |- context [?a =? ?b] => destruct (a =? b)
         end; lia.
Qed.

(** X10: with the default colours of either file the colour lookup cannot
    fail, whatever the level of the record: the five standard levels get
    their colour and every other level 2040357; so a handler with default
    colours hands over exactly one message for every record it can format,
    once the client is constructed. *)
Theorem X10_default_colours_total (w : world) (record : LogRecord)
    (hl : Long.DiscordHandler) (hm : Minimal.DiscordHandler) (msg : pystr) :
  Long.colours hl = Long.DEFAULT_COLOURS ->
  Minimal.colours hm = Minimal.DEFAULT_COLOURS ->
  Long.colour_of hl record = Ok (default_colour (levelno record)) /\
  Minimal.colour_of hm record = Ok (default_colour (levelno record)) /\
  (Long.reentry_barrier hl = false ->
   w_construct w (Long.webhook_url hl) = Ok tt ->
   w_format w record = Ok msg ->
   count_sends (trace_of (Long.emit w record hl)) = 1%nat) /\
  (Minimal.reentry_barrier hm = false ->
   w_construct w (Minimal.webhook_url hm) = Ok tt ->
   w_format w record = Ok msg ->
   count_sends (trace_of (Minimal.emit w record hm)) = 1%nat).
Proof.
  intros Hl Hm.
  assert (Hcl : Long.colour_of hl record = Ok (default_colour (levelno record))).
  { unfold Long.colour_of, getitem_None, default_colour. rewrite Hl.
    rewrite default_colours_lookup.
    repeat match goal with
           | |- context [?a =? ?b] =>
               lazymatch b with
               | 0 => fail
               | _ => destruct (a =? b)
               end
           end; reflexivity. }
  assert (Hcm : Minimal.colour_of hm record = Ok (default_colour (levelno record))).
  { unfold Minimal.colour_of, getitem_None, default_colour. rewrite Hm.
    change Minimal.DEFAULT_COLOURS with Long.DEFAULT_COLOURS.
    rewrite default_colours_lookup.
    repeat match goal with
           | |- context [?a =? ?b] => destruct (a =? b)
           end; reflexivity. }
  split; [exact Hcl |]. split; [exact Hcm |]. split.
  - intros Hb Hc Hf.
    destruct (Long_emit_counts w record hl) as (Hle & _ & Hzero).
    destruct (count_sends (trace_of (Long.emit w record hl))) as [| [| n]];
      [| reflexivity | lia].
    destruct (proj1 Hzero eq_refl)
      as [H | [[e H] | [[e H] | (msg' & colour & _ & Hcol & _ & Hout)]]];
      try congruence.
    assert (colour = default_colour (levelno record)) by congruence. subst colour.
    destruct Hout. apply default_colour_in_range.
  - intros Hb Hc Hf.
    destruct (Minimal_emit_counts w record hm) as (Hle & _ & Hzero).
    destruct (count_sends (trace_of (Minimal.emit w record hm))) as [| [| n]];
      [| reflexivity | lia].
    destruct (proj1 Hzero eq_refl) as [H | [[e H] | [[e H] | [e H]]]]; congruence.
Qed.

Lemma X10_default_colours_total_witness :
  Long.colour_of long_handler (record_at NOTICE) = Ok 2040357 /\
  count_sends (trace_of (Minimal.emit (quiet_world (lit "hello")) (record_at NOTICE)
                           minimal_handler)) = 1%nat.
Proof.
  destruct (X10_default_colours_total (quiet_world (lit "hello")) (record_at NOTICE)
              long_handler minimal_handler (lit "hello") eq_refl eq_refl)
    as (Hl & _ & _ & Hm).
  split; [exact Hl |].
  apply Hm; reflexivity.
Defined.

(** ** Splitting a message into lines *)

Lemma join_cons (sep : char) (p : pystr) (rest : list pystr) :
  rest <> [] -> join sep (p :: rest) = p ++ sep :: join sep rest.
Proof. destruct rest; [contradiction | reflexivity]. Qed.

Lemma join_str_split (sep : char) (maxsplit : option nat) (s : pystr) :
  join sep (str_split sep maxsplit s) = s.
Proof.
  revert maxsplit. induction s as [| c s IH]; intros maxsplit; [reflexivity |].
  cbn [str_split]. destruct (N.eqb c sep) eqn:E.
  - apply N.eqb_eq in E. subst c.
    destruct maxsplit as [[| k] |]; [reflexivity | |];
      rewrite join_cons by apply str_split_nonempty; now rewrite IH.
  - specialize (IH maxsplit).
    destruct (str_split sep maxsplit s) as [| l ls] eqn:Es;
      [now apply str_split_nonempty in Es |].
    destruct ls as [| l' ls']; cbn [join] in *; now rewrite <- IH.
Qed.

Lemma str_split_lines_clean (sep : char) (s : pystr) :
  Forall (fun line => contains sep line = false) (str_split sep None s).
Proof.
  induction s as [| c s IH]; cbn [str_split].
  - constructor; [reflexivity | constructor].
  - destruct (N.eqb c sep) eqn:E.
    + constructor; [reflexivity | exact IH].
    + destruct (str_split sep None s) as [| l ls]; [constructor; [| constructor] |].
      * simpl. now rewrite E.
      * inversion IH as [| ? ? Hl Hls]; subst.
        constructor; [| assumption]. simpl. now rewrite E, Hl.
Qed.

(** X11: the two splits of lines 132 and 137 lose nothing: joining the
    pieces with newlines gives the message back, for either limit; without
    limit no piece contains a newline; and with [maxsplit=1] the unpacking
    gives a first line without newline and, when the message has a newline,
    the message is the first line, a newline and the remainder, while
    otherwise the first line is the message and the remainder is empty. *)
Theorem X11_split_round_trip (msg : pystr) :
  join NEWLINE (str_split NEWLINE None msg) = msg /\
  join NEWLINE (str_split NEWLINE (Some 1%nat) msg) = msg /\
  Forall (fun line => contains NEWLINE line = false) (str_split NEWLINE None msg) /\
  contains NEWLINE (fst (Long.first_remainder msg)) = false /\
  (if contains NEWLINE msg then
     msg = fst (Long.first_remainder msg) ++ NEWLINE :: snd (Long.first_remainder msg)
   else
     Long.first_remainder msg = (msg, [])).
Proof.
  split; [apply join_str_split |]. split; [apply join_str_split |].
  split; [apply str_split_lines_clean |].
  rewrite first_remainder_spec. cbn [fst snd].
  split; [apply first_line_has_no_newline |].
  destruct (contains NEWLINE msg) eqn:E.
  - now apply first_line_split.
  - destruct (first_line_no_newline msg E) as [-> ->]. reflexivity.
Qed.

(** ** Records logged by the client while a message is in flight *)

(** X12: what the webhook client logs through the framework while it
    sends has no effect at all: two worlds that agree on the formatter, on
    the constructor and on the outcome of the send give the same final
    handler, the same trace and the same outcome, whatever records the
    client logs in either and whatever would happen to them. *)
Theorem X12_in_flight_records_have_no_effect (w1 w2 : world) (record : LogRecord)
    (hl : Long.DiscordHandler) (hm : Minimal.DiscordHandler) :
  w_format w1 record = w_format w2 record ->
  (forall u, w_construct w1 u = w_construct w2 u) ->
  (forall m, snd (w_send w1 m) = snd (w_send w2 m)) ->
  Long.emit w1 record hl = Long.emit w2 record hl /\
  Minimal.emit w1 record hm = Minimal.emit w2 record hm.
Proof.
  intros Hf Hc Hs. split.
  - destruct (Long.reentry_barrier hl) eqn:Hb.
    + now rewrite !Long_emit_barrier_set.
    + rewrite !Long_emit_clear by assumption. cbv zeta. rewrite Hf.
      destruct (w_format w2 record); [| reflexivity].
      destruct (Long.colour_of hl record); [| reflexivity].
      destruct (Long.layout _ _ _ _ _); [| reflexivity].
      now rewrite Hs.
  - destruct (Minimal.reentry_barrier hm) eqn:Hb.
    + now rewrite !Minimal_emit_barrier_set.
    + rewrite !Minimal_emit_clear by assumption. cbv zeta. rewrite Hf, Hc.
      destruct (w_format w2 record); [| reflexivity].
      destruct (Minimal.colour_of hm record); [| reflexivity].
      destruct (w_construct w2 _); [| reflexivity].
      now rewrite Hs.
Qed.

Lemma X12_in_flight_records_have_no_effect_witness :
  let noisy := noisy_failing_world (lit "hello") (record_at DEBUG)
                 (quiet_world (lit "retrying")) too_many_requests in
  let silent := failing_world (lit "hello") too_many_requests in
  Long.emit noisy (record_at ERROR) long_handler
    = Long.emit silent (record_at ERROR) long_handler /\
  Minimal.emit noisy (record_at ERROR) minimal_handler
    = Minimal.emit silent (record_at ERROR) minimal_handler.
Proof.
  cbv zeta.
  apply (X12_in_flight_records_have_no_effect
           (noisy_failing_world (lit "hello") (record_at DEBUG)
              (quiet_world (lit "retrying")) too_many_requests)
           (failing_world (lit "hello") too_many_requests)
           (record_at ERROR) long_handler minimal_handler).
  - reflexivity.
  - intros u. reflexivity.
  - intros m. reflexivity.
Defined.

(** ** The two files side by side *)

(** X13: on a message of one line that is not longer than the wrap
    threshold the two files send the same embed (same title, no
    description, same colour), when they are given the same mappings, the
    colours have a fallback entry, and the colour of the record is not 0 and
    within 0 .. 0xFFFFFF. *)
Theorem X13_files_agree_on_short_messages (w : world) (record : LogRecord)
    (hl : Long.DiscordHandler) (hm : Minimal.DiscordHandler) (msg : pystr)
    (colour : Z) :
  Long.colours hl = Minimal.colours hm ->
  Long.emojis hl = Minimal.emojis hm ->
  Minimal.colour_of hm record = Ok colour ->
  Minimal.colours hm !! Some (levelno record) <> Some 0 ->
  colour_in_range colour ->
  Long.reentry_barrier hl = false ->
  Minimal.reentry_barrier hm = false ->
  w_construct w (Minimal.webhook_url hm) = Ok tt ->
  w_format w record = Ok msg ->
  contains NEWLINE msg = false ->
  len msg <= Long.embed_line_wrap_threshold hl ->
  let e := {| title := emoji_prefix (Minimal.emojis hm !! Some (levelno record)) ++ msg;
              description := None;
              color := colour |} in
  List.map embeds (sent (trace_of (Long.emit w record hl))) = [[e]] /\
  List.map embeds (sent (trace_of (Minimal.emit w record hm))) = [[e]] /\
  List.map content (sent (trace_of (Long.emit w record hl))) = [None].
Proof.
  intros Hcols Hemo Hcolm Hnz Hin Hbl Hbm Hcm Hf Hn Hlen. cbv zeta.
  assert (Hcoll : Long.colour_of hl record = Ok colour).
  { unfold Minimal.colour_of, getitem_None in Hcolm.
    unfold Long.colour_of, getitem_None. rewrite Hcols.
    destruct (Minimal.colours hm !! (None : option Z)) as [fallback |];
      [| discriminate Hcolm].
    destruct (Minimal.colours hm !! Some (levelno record)) as [c0 |]; [| exact Hcolm].
    destruct (Z.eqb_spec c0 0) as [-> | _]; [now destruct Hnz | exact Hcolm]. }
  assert (Hsent : sent (trace_of (Long.emit w record hl)) =
                  [embed_message hl
                     {| title := emoji_prefix (Minimal.emojis hm !! Some (levelno record))
                                   ++ msg;
                        description := None;
                        color := colour |}]).
  { apply (Long_emit_sent w record hl msg colour); try assumption.
    rewrite (Long_layout_in_range hl record msg colour Hin). cbv zeta.
    rewrite Hn. apply Z.leb_le in Hlen. rewrite Hlen, Hemo. reflexivity. }
  split; [| split].
  - now rewrite Hsent.
  - rewrite Minimal_emit_clear by assumption. cbv zeta.
    rewrite Hf, Hcolm, Hcm, Minimal_decorate_prefix.
    destruct (snd (w_send w _)) as [[] | e4]; [| destruct (is_http e4)]; reflexivity.
  - now rewrite Hsent.
Qed.

Lemma X13_files_agree_on_short_messages_witness :
  List.map embeds (sent (trace_of (Long.emit (quiet_world (lit "hello")) (record_at ERROR)
                                     long_handler)))
  = List.map embeds (sent (trace_of (Minimal.emit (quiet_world (lit "hello")) (record_at ERROR)
                                       minimal_handler))).
Proof.
  assert (Hnz : Minimal.colours minimal_handler !! Some (levelno (record_at ERROR))
                <> Some 0) by (vm_compute; discriminate).
  assert (Hin : colour_in_range 14362664) by (unfold colour_in_range; lia).
  assert (Hlen : len (lit "hello") <= Long.embed_line_wrap_threshold long_handler)
    by (vm_compute; discriminate).
  destruct (X13_files_agree_on_short_messages (quiet_world (lit "hello")) (record_at ERROR)
              long_handler minimal_handler (lit "hello") 14362664
              eq_refl eq_refl eq_refl Hnz Hin eq_refl eq_refl eq_refl eq_refl eq_refl Hlen)
    as (Hl & Hm & _).
  now rewrite Hl, Hm.
Defined.

(** ** clip_content outside its intended range *)

(** X14: a [max_len] of 0 or less never shortens to [max_len] characters.
    Every content counts as too long; the tail policy returns the ellipsis
    followed by the content without its first [-max_len] characters (all of
    it for 0), and the head policy the content without its last [-max_len]
    characters (none of it for 0) followed by the ellipsis. *)
Theorem X14_clip_content_nonpositive_max (content : pystr) (max_len : Z) :
  max_len <= 0 ->
  Long.clip_content content max_len true =
    ELLIPSIS ++ skipn (Z.to_nat (- max_len)) content /\
  Long.clip_content content max_len false =
    (if max_len =? 0 then [] else firstn (length content - Z.to_nat (- max_len)) content)
    ++ ELLIPSIS.
Proof.
  intros HM. pose proof (len_nonneg content) as HL.
  unfold Long.clip_content.
  destruct (len content >? max_len - 5) eqn:E;
    [| rewrite Z.gtb_ltb in E; apply Z.ltb_ge in E; lia].
  split.
  - f_equal. unfold slice, adjust_index.
    destruct (- max_len <? 0) eqn:E1; [apply Z.ltb_lt in E1; lia |].
    destruct (len content <? - max_len) eqn:E2.
    + apply Z.ltb_lt in E2. rewrite Z.sub_diag. simpl take.
      symmetry. apply drop_ge. unfold len in *. lia.
    + apply Z.ltb_ge in E2.
      apply take_ge. rewrite length_drop. unfold len in *. lia.
  - f_equal. unfold slice, adjust_index.
    change (0 <? 0) with false. cbv iota.
    destruct (len content <? 0) eqn:E0; [apply Z.ltb_lt in E0; lia |].
    simpl drop. rewrite Z.sub_0_r.
    destruct (Z.eqb_spec max_len 0) as [-> | Hne].
    + change (0 <? 0) with false. cbv iota. rewrite E0. reflexivity.
    + destruct (max_len <? 0) eqn:E1; [| apply Z.ltb_ge in E1; lia].
      destruct (max_len + len content <? 0) eqn:E2.
      * apply Z.ltb_lt in E2.
        replace (length content - Z.to_nat (- max_len))%nat with 0%nat
          by (unfold len in *; lia).
        reflexivity.
      * apply Z.ltb_ge in E2. f_equal. unfold len in *. lia.
Qed.

Lemma X14_clip_content_nonpositive_max_witness :
  Long.clip_content (lit "abcdefg") 0 true = lit "...abcdefg" /\
  Long.clip_content (lit "abcdefg") 0 false = lit "..." /\
  Long.clip_content (lit "abcdefg") (-2) true = lit "...cdefg" /\
  Long.clip_content (lit "abcdefg") (-2) false = lit "abcde...".
Proof.
  assert (H0 : 0 <= 0) by lia. assert (H2 : -2 <= 0) by lia.
  destruct (X14_clip_content_nonpositive_max (lit "abcdefg") 0 H0) as (Ha & Hb).
  destruct (X14_clip_content_nonpositive_max (lit "abcdefg") (-2) H2) as (Hc & Hd).
  rewrite Ha, Hb, Hc, Hd. repeat split.
Defined.

(** ** Messages that need no clipping, and the empty message *)

Lemma len_after_first_newline (s : pystr) : len (after_first_newline s) <= len s.
Proof.
  unfold len. induction s as [| c s IH]; simpl; [lia |].
  destruct (N.eqb c NEWLINE); simpl; lia.
Qed.

(** X15: src/discord_logging/handler.py sends a message of at most 1895
    characters without losing any of it: as the title of a short embed, or
    whole inside the fence, or as first line in the title and everything
    after the first newline in the description. *)
Theorem X15_short_messages_are_sent_whole (w : world) (record : LogRecord)
    (h : Long.DiscordHandler) (m : message) (msg : pystr) :
  In m (sent (trace_of (Long.emit w record h))) ->
  w_format w record = Ok msg ->
  len msg <= Long.DEFAULT_MAX_LEN - 5 ->
  let looked_up := Long.emojis h !! Some (levelno record) in
  (exists colour,
     m = embed_message h {| title := emoji_prefix looked_up ++ msg;
                            description := None;
                            color := colour |}) \/
  m = content_message h (FENCE ++ rendered_prefix looked_up ++ msg ++ FENCE) \/
  (exists colour first rest,
     msg = first ++ NEWLINE :: rest /\
     m = embed_message h {| title := rendered_prefix looked_up ++ first;
                            description := Some rest;
                            color := colour |}).
Proof.
  intros Hin Hf Hlen looked_up.
  destruct (Long_sent_inv w record h m Hin) as (_ & msg' & colour & Hf' & _ & Hm).
  assert (msg' = msg) by congruence. subst msg'. cbv zeta in Hm. fold looked_up in Hm.
  destruct (negb (contains NEWLINE msg) && _) eqn:Eshort.
  - left. eauto.
  - destruct (longest_line msg >? _) eqn:Elong.
    + right. left. subst m. rewrite <- clip_spec.
      rewrite clip_content_short by assumption. reflexivity.
    + right. right. exists colour, (first_line msg), (after_first_newline msg).
      assert (Hn : contains NEWLINE msg = true).
      { destruct (contains NEWLINE msg) eqn:En; [reflexivity |]. exfalso.
        simpl in Eshort. apply Z.leb_gt in Eshort.
        rewrite (longest_line_no_newline msg En) in Elong.
        rewrite Z.gtb_ltb in Elong. apply Z.ltb_ge in Elong. lia. }
      split; [now apply first_line_split |].
      subst m. rewrite <- clip_spec. rewrite clip_content_short; [reflexivity |].
      pose proof (len_after_first_newline msg). lia.
Qed.

Lemma X15_short_messages_are_sent_whole_witness :
  exists colour first rest,
    lit "short" ++ [NEWLINE] ++ lit "short2" = first ++ NEWLINE :: rest /\
    embed_message long_handler
      {| title := EMOJI_CROSS ++ SPACE ++ lit "short";
         description := Some (lit "short2");
         color := 14362664 |}
    = embed_message long_handler
        {| title := rendered_prefix (Long.emojis long_handler !! Some ERROR) ++ first;
           description := Some rest;
           color := colour |}.
Proof.
  destruct (X15_short_messages_are_sent_whole
              (quiet_world (lit "short" ++ [NEWLINE] ++ lit "short2")) (record_at ERROR)
              long_handler
              (embed_message long_handler
                 {| title := EMOJI_CROSS ++ SPACE ++ lit "short";
                    description := Some (lit "short2");
                    color := 14362664 |})
              (lit "short" ++ [NEWLINE] ++ lit "short2"))
    as [(colour & Hm) | [Hm | Hm]].
  - left. vm_compute. reflexivity.
  - reflexivity.
  - vm_compute. discriminate.
  - vm_compute in Hm. discriminate Hm.
  - vm_compute in Hm. discriminate Hm.
  - exact Hm.
Defined.

(** X16: an empty formatted message is still sent, by both files: as an
    embed whose title is the emoji prefix alone, so an empty title for a
    level without emoji (in src/discord_logging/handler.py provided the wrap
    threshold is not negative and the colour is within 0 .. 0xFFFFFF). *)
Theorem X16_empty_message_is_sent (w : world) (record : LogRecord)
    (hl : Long.DiscordHandler) (hm : Minimal.DiscordHandler) (cl cm : Z) :
  w_format w record = Ok [] ->
  Long.reentry_barrier hl = false ->
  Minimal.reentry_barrier hm = false ->
  w_construct w (Minimal.webhook_url hm) = Ok tt ->
  Long.colour_of hl record = Ok cl ->
  colour_in_range cl ->
  Minimal.colour_of hm record = Ok cm ->
  0 <= Long.embed_line_wrap_threshold hl ->
  sent (trace_of (Long.emit w record hl)) =
    [embed_message hl {| title := emoji_prefix (Long.emojis hl !! Some (levelno record));
                         description := None;
                         color := cl |}] /\
  sent (trace_of (Minimal.emit w record hm)) =
    [Minimal.outbound hm cm (emoji_prefix (Minimal.emojis hm !! Some (levelno record)))].
Proof.
  intros Hf Hbl Hbm Hcm Hcoll Hin Hcolm HT. split.
  - apply (Long_emit_sent w record hl [] cl); try assumption.
    rewrite (Long_layout_in_range hl record [] cl Hin). cbv zeta.
    change (contains NEWLINE []) with false. change (len []) with 0.
    apply Z.leb_le in HT. rewrite HT. cbn [negb andb]. now rewrite app_nil_r.
  - rewrite Minimal_emit_clear by assumption. cbv zeta.
    rewrite Hf, Hcolm, Hcm, Minimal_decorate_prefix, app_nil_r.
    destruct (snd (w_send w _)) as [[] | e4]; [| destruct (is_http e4)]; reflexivity.
Qed.

Lemma X16_empty_message_is_sent_witness :
  List.map embeds (sent (trace_of (Long.emit (quiet_world []) (record_at INFO) long_handler)))
    = [[ {| title := []; description := None; color := 2196944 |} ]] /\
  List.map embeds
    (sent (trace_of (Minimal.emit (quiet_world []) (record_at ERROR) minimal_handler)))
    = [[ {| title := EMOJI_CROSS ++ SPACE; description := None; color := 14362664 |} ]].
Proof.
  assert (HT : 0 <= Long.embed_line_wrap_threshold long_handler)
    by (vm_compute; discriminate).
  assert (Hin1 : colour_in_range 2196944) by (unfold colour_in_range; lia).
  assert (Hin2 : colour_in_range 14362664) by (unfold colour_in_range; lia).
  destruct (X16_empty_message_is_sent (quiet_world []) (record_at INFO)
              long_handler minimal_handler 2196944 2196944
              eq_refl eq_refl eq_refl eq_refl eq_refl Hin1 eq_refl HT) as (Hl & _).
  destruct (X16_empty_message_is_sent (quiet_world []) (record_at ERROR)
              long_handler minimal_handler 14362664 14362664
              eq_refl eq_refl eq_refl eq_refl eq_refl Hin2 eq_refl HT) as (_ & Hm).
  rewrite Hl, Hm. split; reflexivity.
Defined.
